(** * ksh2osu: the KSH -> osu!mania converter (src/ksh2osu.py)

    A shallow embedding of class [KSHConverter] and a verification of the
    properties its specification states about it.

    Conventions of the embedding.
    - A Python [str] is a [string]; the file is read as UTF-8, so a
      non-ASCII code point is the sequence of its UTF-8 bytes (the byte
      order mark U+FEFF is the three bytes 239 187 191).
    - A Python [float] is an exact rational [Q]: rounding, infinities and
      NaN are outside the model.  Division by zero raises, as in Python.
      So [float(s)] reads the finite decimal literals only ([inf], [nan],
      digit-group underscores and non-ASCII digits raise [ValueError]
      here), [int(x)] is total, and the test [abs(new - cur) > 0.001] of a
      tempo line is exact, where Python rounds both sides.  A run that
      Python aborts on a non-finite value (the header offset [nan], a
      tempo that underflows to zero) may complete here: that a conversion
      returns is a fact of the rational model, and what is proved of its
      events and markers holds of the runs that Python completes.
    - [str.strip] and [str.isspace] are those of the ASCII range.
    - A Python [int] is a [Z].
    - A raised exception is a value of [exn]; fallible code lives in the
      [result] monad.
    - The [dict] [meta] is a [gmap string string]; the [dict] [hold_state],
      whose keys are [range(num_lanes)] in insertion order, is a
      [list (option Z)] indexed by lane. *)

From Stdlib Require Import ZArith QArith Qabs Ascii String List Lia.
From Stdlib Require Import DecimalString.
From stdpp Require Import base option list gmap strings sorting.

Local Open Scope Z_scope.

(** ** Python builtins used by the converter *)

Module Py.

Inductive exn := ValueError | ZeroDivisionError | KeyError.

Inductive result (A : Type) := Ok (a : A) | Raise (e : exn).
Arguments Ok {A} a.
Arguments Raise {A} e.

Definition bind {A B} (m : result A) (k : A -> result B) : result B :=
  match m with Ok a => k a | Raise e => Raise e end.

(** [try: m except ValueError: h] *)
Definition except_ValueError {A} (m : result A) (h : result A) : result A :=
  match m with
  | Raise ValueError => h
  | _ => m
  end.

(** *** str *)

(** [c.isspace()] on the ASCII range: TAB LF VT FF CR, FS GS RS US, SPACE. *)
Definition isspace (c : ascii) : bool :=
  let n := nat_of_ascii c in
  ((9 <=? n)%nat && (n <=? 13)%nat) || ((28 <=? n)%nat && (n <=? 32)%nat).

Fixpoint lstrip (s : string) : string :=
  match s with
  | String c s' => if isspace c then lstrip s' else s
  | EmptyString => EmptyString
  end.

Fixpoint rstrip (s : string) : string :=
  match s with
  | String c s' =>
      match rstrip s' with
      | EmptyString => if isspace c then EmptyString else String c EmptyString
      | r => String c r
      end
  | EmptyString => EmptyString
  end.

(** [s.strip()] *)
Definition strip (s : string) : string := rstrip (lstrip s).

(** [s.startswith(p)] *)
Definition startswith (p s : string) : bool := String.prefix p s.

(** [c in s] for a one-character [c] *)
Fixpoint contains (c : ascii) (s : string) : bool :=
  match s with
  | String d s' => if Ascii.eqb c d then true else contains c s'
  | EmptyString => false
  end.

(** [s[n:]] *)
Fixpoint drop (n : nat) (s : string) : string :=
  match n, s with
  | S n', String _ s' => drop n' s'
  | _, _ => s
  end.

(** [s[:n]] *)
Fixpoint take (n : nat) (s : string) : string :=
  match n, s with
  | S n', String c s' => String c (take n' s')
  | _, _ => EmptyString
  end.

(** [s.split(sep)] for a one-character [sep]; never the empty list. *)
Fixpoint split (sep : ascii) (s : string) : list string :=
  match s with
  | EmptyString => [EmptyString]
  | String c s' =>
      if Ascii.eqb c sep then EmptyString :: split sep s'
      else match split sep s' with
           | p :: ps => String c p :: ps
           | [] => [String c EmptyString]
           end
  end.

(** [s.split(sep, 1)]: at most one split, at the first [sep]. *)
Fixpoint split1 (sep : ascii) (s : string) : list string :=
  match s with
  | EmptyString => [EmptyString]
  | String c s' =>
      if Ascii.eqb c sep then [EmptyString; s']
      else match split1 sep s' with
           | p :: ps => String c p :: ps
           | [] => [String c EmptyString]
           end
  end.

(** [os.path.basename(p)]: what follows the last slash. *)
Definition basename (p : string) : string :=
  List.last (split "/" p) EmptyString.

(** [sep.join(l)] *)
Fixpoint join (sep : string) (l : list string) : string :=
  match l with
  | [] => EmptyString
  | [s] => s
  | s :: l' => (s ++ sep ++ join sep l')%string
  end.

(** *** int and float *)

Definition digit (c : ascii) : option Z :=
  let n := nat_of_ascii c in
  if ((48 <=? n)%nat && (n <=? 57)%nat)%bool then Some (Z.of_nat n - 48) else None.

(** The longest prefix of decimal digits: its value, its length, the rest. *)
Fixpoint digits (acc : Z) (len : nat) (s : string) : Z * nat * string :=
  match s with
  | String c s' =>
      match digit c with
      | Some d => digits (10 * acc + d) (S len) s'
      | None => (acc, len, s)
      end
  | EmptyString => (acc, len, s)
  end.

(** An optional sign: [true] for minus. *)
Definition sign (s : string) : bool * string :=
  match s with
  | String "-" s' => (true, s')
  | String "+" s' => (false, s')
  | _ => (false, s)
  end.

(** [int(s)] for a [str]: surrounding white space, an optional sign, one
    or more decimal digits (digit-group underscores are not modelled). *)
Definition int_of_str (s : string) : result Z :=
  let '(neg, s1) := sign (strip s) in
  let '(v, len, rest) := digits 0 0 s1 in
  match len, rest with
  | S _, EmptyString => Ok (if neg then - v else v)
  | _, _ => Raise ValueError
  end.

(** The exponent part of a float literal, [e] or [E], optional sign,
    digits; an absent exponent is 0. *)
Definition exponent (s : string) : option Z :=
  match s with
  | EmptyString => Some 0
  | String c s' =>
      if (Ascii.eqb c "e" || Ascii.eqb c "E")%bool then
        let '(neg, s1) := sign s' in
        let '(v, len, rest) := digits 0 0 s1 in
        match len, rest with
        | S _, EmptyString => Some (if neg then - v else v)
        | _, _ => None
        end
      else None
  end.

Definition pow10 (e : Z) : Q :=
  if 0 <=? e then inject_Z (10 ^ e) else / inject_Z (10 ^ (- e)).

(** [float(s)] for a [str]: surrounding white space, an optional sign, a
    decimal mantissa with at least one digit, an optional exponent.  The
    literals [inf], [nan] and digit-group underscores are not modelled. *)
Definition float_of_str (s : string) : result Q :=
  let '(neg, s1) := sign (strip s) in
  let '(ip, ilen, s2) := digits 0 0 s1 in
  let '(fp, flen, s3) :=
    match s2 with
    | String "." s2' => digits 0 0 s2'
    | _ => (0, 0%nat, s2)
    end in
  match (ilen + flen)%nat, exponent s3 with
  | S _, Some e =>
      let m := (inject_Z ip + inject_Z fp / inject_Z (10 ^ Z.of_nat flen))%Q in
      let v := Qred (m * pow10 e) in
      Ok (if neg then Qopp v else v)
  | _, _ => Raise ValueError
  end.

(** [int(x)] for a [float]: truncation toward zero. *)
Definition int_of_float (x : Q) : Z := Z.quot (Qnum x) (Z.pos (Qden x)).

(** [round(x)] for a [float]: to the nearest integer, ties to even. *)
Definition round (x : Q) : Z :=
  let n := Qnum x in
  let d := Z.pos (Qden x) in
  let fl := n / d in
  match (2 * (n mod d)) ?= d with
  | Lt => fl
  | Gt => fl + 1
  | Eq => if Z.even fl then fl else fl + 1
  end.

(** [a / b] on floats *)
Definition truediv (a b : Q) : result Q :=
  if Qeq_bool b 0 then Raise ZeroDivisionError else Ok (a / b)%Q.

(** [a > b] on floats *)
Definition gt (a b : Q) : bool := negb (Qle_bool a b).

(** [str(n)] for an [int] *)
Definition str_of_int (n : Z) : string := NilZero.string_of_int (Z.to_int n).

(** [format(x, ".6f")] *)
Definition format_6f (x : Q) : string :=
  let m := round (Qabs x * inject_Z 1000000) in
  let frac := str_of_int (m mod 1000000) in
  ((if Qle_bool 0 x then "" else "-") ++ str_of_int (m / 1000000) ++ "."
   ++ String.concat "" (repeat "0" (6 - String.length frac)) ++ frac)%string.

End Py.

Abbreviation result := Py.result.
Abbreviation Ok := Py.Ok.
Abbreviation Raise := Py.Raise.
Abbreviation ValueError := Py.ValueError.
Abbreviation ZeroDivisionError := Py.ZeroDivisionError.
Abbreviation KeyError := Py.KeyError.

#[global] Instance result_ret : MRet Py.result := @Py.Ok.
#[global] Instance result_bind : MBind Py.result := fun A B k m => Py.bind m k.

Local Open Scope string_scope.

(** ** Output events *)

(** A hit object: [Tap x t] is the line [f"{x},192,{t},1,0,0:0:0:0:"],
    [Hold x s e] the line [f"{x},192,{s},128,0,{e}"]. *)
Inductive hit_object :=
| Tap (x time : Z)
| Hold (x start_time end_time : Z).

(** A timing point [f"{time},{ms_per_beat:.6f},{meter},1,0,100,1,0"]; the
    converter writes the literal 4 for the meter. *)
Record timing_point := TimingPoint {
  tp_time : Z;
  tp_ms_per_beat : Q;
  tp_meter : Z }.

Definition render_hit_object (h : hit_object) : string :=
  match h with
  | Tap x t =>
      Py.str_of_int x ++ ",192," ++ Py.str_of_int t ++ ",1,0,0:0:0:0:"
  | Hold x s e =>
      Py.str_of_int x ++ ",192," ++ Py.str_of_int s ++ ",128,0," ++ Py.str_of_int e
  end.

Definition render_timing_point (p : timing_point) : string :=
  Py.str_of_int (tp_time p) ++ "," ++ Py.format_6f (tp_ms_per_beat p) ++ ","
  ++ Py.str_of_int (tp_meter p) ++ ",1,0,100,1,0".

(** The two lists every note routine mutates: [hold_state] and [hit_objects]. *)
Record notes := Notes {
  hold_state : list (option Z);
  hit_objects : list hit_object }.

(** The local variables of [parse_chart_data] that the measure loop updates. *)
Record timeline := Timeline {
  current_bpm : Q;
  beats_per_measure : Z;
  current_time : Q;
  ms_per_beat : Q;
  timing_points : list timing_point;
  tl_notes : notes }.

(** The variables set on entering a measure, and the lines collected so far. *)
Record measure := Measure {
  measure_lines : list string;
  measure_start_time : Q;
  measure_bpm : Q;
  measure_beats : Z }.

(** [for idx, char in enumerate(s): if idx >= limit: break; body] *)
Fixpoint for_chars (limit : nat) (body : nat -> ascii -> notes -> result notes)
    (idx : nat) (s : string) (ns : notes) : result notes :=
  match s with
  | EmptyString => Ok ns
  | String c s' =>
      if (limit <=? idx)%nat then Ok ns
      else ns' ← body idx c ns; for_chars limit body (S idx) s' ns'
  end.

(** [for line_idx, line in enumerate(lines): body] *)
Fixpoint for_lines (body : nat -> string -> notes -> result notes)
    (line_idx : nat) (lines : list string) (ns : notes) : result notes :=
  match lines with
  | [] => Ok ns
  | line :: lines' =>
      ns' ← body line_idx line ns; for_lines body (S line_idx) lines' ns'
  end.

(** [hold_state[lane]] as an rvalue *)
Definition hold_get (hs : list (option Z)) (lane : nat) : result (option Z) :=
  match hs !! lane with
  | Some v => Ok v
  | None => Raise KeyError
  end.

(** ** class KSHConverter *)

Section KSHConverter.

(** [self.four_key], [self.custom_offset_ms] *)
Variable four_key : bool.
Variable custom_offset_ms : Z.

Definition num_lanes : nat := if four_key then 4%nat else 6%nat.

(** *** parse_ksh_metadata *)

Definition bom : string :=
  String (ascii_of_nat 239) (String (ascii_of_nat 187)
    (String (ascii_of_nat 191) EmptyString)).

(** The body of the [while] loop for one line (already stripped). *)
Definition metadata_line (line : string) (meta : gmap string string)
  : gmap string string :=
  if Py.contains "=" line && negb (Py.startswith "#" line) then
    match Py.split1 "=" line with
    | [key; value] =>
        let key := Py.strip key in
        let value := Py.strip value in
        let key := if Py.startswith bom key then Py.drop 3 key else key in
        <[key := value]> meta
    | _ => meta
    end
  else meta.

Fixpoint metadata_loop (lines : list string) (i : nat)
    (meta : gmap string string) : gmap string string * nat :=
  match lines with
  | [] => (meta, i)
  | raw :: lines' =>
      if String.eqb (Py.strip raw) "--" then (meta, S i)
      else metadata_loop lines' (S i) (metadata_line (Py.strip raw) meta)
  end.

Definition parse_ksh_metadata (lines : list string)
  : gmap string string * nat :=
  metadata_loop lines 0%nat ∅.

(** *** Lane mapper *)

Definition ksh_to_osu_lane (is_fx : bool) (idx : nat) : option nat :=
  if four_key then
    if is_fx then None else Some (Nat.min idx 3)
  else
    if is_fx then Some (if (idx =? 0)%nat then 0%nat else 5%nat)
    else Some (1 + Nat.min idx 3)%nat.

Definition lane_x_pos (lane_idx : nat) : Z :=
  let col_width := (512 / inject_Z (Z.of_nat num_lanes))%Q in
  let x := (inject_Z (Z.of_nat lane_idx) * col_width + col_width * (1 # 2))%Q in
  Py.round x.

(** *** Note rules *)

(** The block shared by every closing rule:
    [if hold_state[lane] is not None: start_time = hold_state[lane];
     hold_state[lane] = None; hit_objects.append(hold x start_time time)] *)
Definition end_hold (lane : nat) (x time : Z) (ns : notes) : result notes :=
  h ← hold_get (hold_state ns) lane;
  match h with
  | Some start_time =>
      Ok (Notes (<[lane := None]> (hold_state ns))
                (hit_objects ns ++ [Hold x start_time time]))
  | None => Ok ns
  end.

(** [if hold_state[lane] is None: hold_state[lane] = time] *)
Definition begin_hold (lane : nat) (time : Z) (ns : notes) : result notes :=
  h ← hold_get (hold_state ns) lane;
  match h with
  | None => Ok (Notes (<[lane := Some time]> (hold_state ns)) (hit_objects ns))
  | Some _ => Ok ns
  end.

Definition tap (x time : Z) (ns : notes) : notes :=
  Notes (hold_state ns) (hit_objects ns ++ [Tap x time]).

Definition process_bt_note (char : ascii) (ksh_idx : nat) (time : Z)
    (ns : notes) : result notes :=
  match ksh_to_osu_lane false ksh_idx with
  | None => Ok ns
  | Some osu_lane =>
      let x := lane_x_pos osu_lane in
      if Ascii.eqb char "1" then
        ns' ← end_hold osu_lane x time ns; Ok (tap x time ns')
      else if Ascii.eqb char "2" then
        begin_hold osu_lane time ns
      else if Ascii.eqb char "0" || Ascii.eqb char " " then
        end_hold osu_lane x time ns
      else Ok ns
  end.

Definition process_fx_note (char : ascii) (ksh_idx : nat) (time : Z)
    (ns : notes) : result notes :=
  match ksh_to_osu_lane true ksh_idx with
  | None => Ok ns
  | Some osu_lane =>
      let x := lane_x_pos osu_lane in
      if Ascii.eqb char "2" then
        ns' ← end_hold osu_lane x time ns; Ok (tap x time ns')
      else if Ascii.eqb char "1" then
        begin_hold osu_lane time ns
      else if Ascii.eqb char "0" || Ascii.eqb char " " then
        end_hold osu_lane x time ns
      else Ok ns
  end.

(** [parts = line.split('|')]; [parts[0]] and [parts[1]], or [''] *)
Definition bt_part (line : string) : string :=
  match Py.split "|" line with
  | p :: _ => p
  | [] => ""
  end.

Definition fx_part (line : string) : string :=
  match Py.split "|" line with
  | _ :: p :: _ => p
  | _ => ""
  end.

(** *** check_cross_measure_holds *)

(** The body of either lookahead loop; [closing] are the characters that
    end a hold ([['0', '1', ' ']] for BT, [['0', '2', ' ']] for FX). *)
Definition cross_measure_note (is_fx : bool) (closing : list ascii)
    (measure_end_time : Z) (idx : nat) (char : ascii) (ns : notes)
  : result notes :=
  match ksh_to_osu_lane is_fx idx with
  | None => Ok ns
  | Some osu_lane =>
      h ← hold_get (hold_state ns) osu_lane;
      match h with
      | Some start_time =>
          if existsb (Ascii.eqb char) closing then
            Ok (Notes (<[osu_lane := None]> (hold_state ns))
                      (hit_objects ns
                       ++ [Hold (lane_x_pos osu_lane) start_time measure_end_time]))
          else Ok ns
      | None => Ok ns
      end
  end.

Definition check_cross_measure_holds (ns : notes)
    (next_measure_data : list string) (measure_end_time : Z) : result notes :=
  match List.find (Py.contains "|") next_measure_data with
  | None => Ok ns
  | Some first_line =>
      if String.eqb first_line "" then Ok ns
      else
        ns' ← for_chars 4 (cross_measure_note false ["0"; "1"; " "]%char
                             measure_end_time) 0 (bt_part first_line) ns;
        for_chars 2 (cross_measure_note true ["0"; "2"; " "]%char
                       measure_end_time) 0 (fx_part first_line) ns'
  end.

(** *** process_measure_with_lookahead, process_measure *)

Definition process_line (start_time line_duration : Q) (line_idx : nat)
    (line : string) (ns : notes) : result notes :=
  let line_time :=
    Py.int_of_float (start_time + inject_Z (Z.of_nat line_idx) * line_duration) in
  ns' ← for_chars 4 (fun bt_idx char => process_bt_note char bt_idx line_time)
          0 (bt_part line) ns;
  for_chars 2 (fun fx_idx char => process_fx_note char fx_idx line_time)
    0 (fx_part line) ns'.

Definition process_measure_with_lookahead (note_lines : list string)
    (start_time bpm : Q) (beats_per_measure : Z) (ns : notes)
    (next_measure_data : option (list string)) : result (notes * Q) :=
  match note_lines with
  | [] => Ok (ns, start_time)
  | _ =>
      q ← Py.truediv 60000 bpm;
      let measure_duration := (q * inject_Z beats_per_measure)%Q in
      line_duration ← Py.truediv measure_duration
                        (inject_Z (Z.of_nat (length note_lines)));
      ns1 ← for_lines (process_line start_time line_duration) 0 note_lines ns;
      ns2 ← match next_measure_data with
            | Some (l :: ls) =>
                check_cross_measure_holds ns1 (l :: ls)
                  (Py.int_of_float (start_time + measure_duration))
            | _ => Ok ns1
            end;
      Ok (ns2, (start_time + measure_duration)%Q)
  end.

Definition process_measure (note_lines : list string) (start_time bpm : Q)
    (beats_per_measure : Z) (ns : notes) : result (notes * Q) :=
  process_measure_with_lookahead note_lines start_time bpm beats_per_measure
    ns None.

(** *** close_remaining_holds *)

(** [hold_state.items()]: the pairs (lane, value) in insertion order. *)
Definition items (hs : list (option Z)) : list (nat * option Z) :=
  zip (seq 0 (length hs)) hs.

(** [for lane, start_time in items: if start_time is not None: ...] *)
Fixpoint close_loop (its : list (nat * option Z)) (final_time : Z)
    (ns : notes) : notes :=
  match its with
  | [] => ns
  | (lane, Some start_time) :: its' =>
      close_loop its' final_time
        (Notes (<[lane := None]> (hold_state ns))
               (hit_objects ns ++ [Hold (lane_x_pos lane) start_time final_time]))
  | (lane, None) :: its' => close_loop its' final_time ns
  end.

Definition close_remaining_holds (ns : notes) (final_time : Z) : notes :=
  close_loop (items (hold_state ns)) final_time ns.

(** *** parse_chart_data *)

(** The handler of a [t=] line. *)
Definition tempo_line (line : string) (st : timeline) : result timeline :=
  Py.except_ValueError
    (new_bpm ← Py.float_of_str (Py.drop 2 line);
     if Py.gt (Qabs (new_bpm - current_bpm st)) (1 # 1000) then
       ms_per_beat ← Py.truediv 60000 new_bpm;
       Ok (Timeline new_bpm (beats_per_measure st) (current_time st) ms_per_beat
             (timing_points st
              ++ [TimingPoint (Py.int_of_float (current_time st)) ms_per_beat 4])
             (tl_notes st))
     else Ok st)
    (Ok st).

(** The handler of a [beat=] line. *)
Definition beat_line (line : string) (st : timeline) : result timeline :=
  Py.except_ValueError
    (let beat_str := Py.drop 5 line in
     numerator ←
       (if Py.contains "/" beat_str then
          Py.int_of_str (List.hd "" (Py.split "/" beat_str))
        else Py.int_of_str beat_str);
     Ok (Timeline (current_bpm st) numerator (current_time st) (ms_per_beat st)
           (timing_points st) (tl_notes st)))
    (Ok st).

(** The body of the inner [while] loop, for one stripped line that is not
    the delimiter. *)
Definition collect_line (line : string) (st : timeline) (m : measure)
  : result (timeline * measure) :=
  if String.eqb line "" then Ok (st, m)
  else if Py.startswith "fx-l=" line || Py.startswith "fx-r=" line then Ok (st, m)
  else if Py.startswith "t=" line then
    st' ← tempo_line line st; Ok (st', m)
  else if Py.startswith "beat=" line then
    st' ← beat_line line st; Ok (st', m)
  else if Py.contains "=" line then Ok (st, m)
  else Ok (st, Measure (measure_lines m ++ [line]) (measure_start_time m)
                 (measure_bpm m) (measure_beats m)).

(** The block [# Process measure], run when the inner loop stops. *)
Definition finish_measure (st : timeline) (m : measure) : result timeline :=
  match measure_lines m with
  | [] => Ok st
  | _ =>
      let note_lines := List.filter (Py.contains "|") (measure_lines m) in
      match note_lines with
      | _ :: _ =>
          '(ns, t) ← process_measure note_lines (measure_start_time m)
                       (current_bpm st) (beats_per_measure st) (tl_notes st);
          Ok (Timeline (current_bpm st) (beats_per_measure st) t (ms_per_beat st)
                (timing_points st) ns)
      | [] =>
          q ← Py.truediv 60000 (current_bpm st);
          let measure_duration := (q * inject_Z (beats_per_measure st))%Q in
          Ok (Timeline (current_bpm st) (beats_per_measure st)
                (current_time st + measure_duration)%Q (ms_per_beat st)
                (timing_points st) (tl_notes st))
      end
  end.

(** The first four statements of the outer loop body. *)
Definition enter_measure (st : timeline) : measure :=
  Measure [] (current_time st) (current_bpm st) (beats_per_measure st).

(** The two nested [while] loops as one pass over [lines[i:]]: [m] is the
    measure being collected.  A delimiter, or the end of the input,
    finishes the measure; after a delimiter the next measure is entered.
    (When the input ends right after a delimiter the source leaves the
    outer loop; here an empty measure is finished, which changes nothing.) *)
Fixpoint measures_loop (lines : list string) (st : timeline) (m : measure)
  : result timeline :=
  match lines with
  | [] => finish_measure st m
  | raw :: lines' =>
      let line := Py.strip raw in
      if String.eqb line "--" then
        st' ← finish_measure st m;
        measures_loop lines' st' (enter_measure st')
      else
        '(st', m') ← collect_line line st m;
        measures_loop lines' st' m'
  end.

(** [float(meta.get('t', 120))] *)
Definition header_bpm (meta : gmap string string) : result Q :=
  match meta !! "t" with
  | Some v => Py.float_of_str v
  | None => Ok 120%Q
  end.

(** The [try] block computing [parsed_offset]. *)
Definition header_offset (meta : gmap string string) : Q :=
  let raw_offset := default "0" (meta !! "o") in
  match
    Py.except_ValueError
      (parsed_offset ← (if String.eqb raw_offset "" then Ok 0%Q
                         else Py.float_of_str raw_offset);
       Ok (if Py.gt (Qabs parsed_offset) 30000 then 0%Q else parsed_offset))
      (Ok 0%Q)
  with
  | Ok v => v
  | Raise _ => 0%Q
  end.

Definition start_time_of (meta : gmap string string) : Z :=
  Py.int_of_float (header_offset meta) + custom_offset_ms.

(** The state on entering the outer loop. *)
Definition initial_timeline (meta : gmap string string) : result timeline :=
  current_bpm ← header_bpm meta;
  let start_time := start_time_of meta in
  ms_per_beat ← Py.truediv 60000 current_bpm;
  Ok (Timeline current_bpm 4 (inject_Z start_time) ms_per_beat
        [TimingPoint start_time ms_per_beat 4]
        (Notes (replicate num_lanes None) [])).

(** [parse_chart_data] up to the formatting of its two lists; the final
    [hold_state] is kept for inspection. *)
Definition build_timeline (lines : list string) (start_idx : nat)
    (meta : gmap string string) : result timeline :=
  st ← initial_timeline meta;
  st ← measures_loop (drop start_idx lines) st (enter_measure st);
  Ok (Timeline (current_bpm st) (beats_per_measure st) (current_time st)
        (ms_per_beat st) (timing_points st)
        (close_remaining_holds (tl_notes st) (Py.int_of_float (current_time st)))).

Definition parse_chart_data (lines : list string) (start_idx : nat)
    (meta : gmap string string) : result (list string * list string) :=
  st ← build_timeline lines start_idx meta;
  Ok (render_timing_point <$> timing_points st,
      render_hit_object <$> hit_objects (tl_notes st)).

(** *** create_osu_content *)

Definition meta_get (meta : gmap string string) (k d : string) : string :=
  default d (meta !! k).

(** [lines] before the four [extend] calls. *)
Definition osu_head (meta : gmap string string) : list string :=
  let title := meta_get meta "title" "Untitled" in
  let artist := meta_get meta "artist" "Unknown Artist" in
  let creator := meta_get meta "effect" "ksh2osu" in
  let difficulty := meta_get meta "difficulty" "converted" in
  let level := meta_get meta "level" "" in
  let version := Py.strip (difficulty ++ " " ++ level) in
  let audio_file := meta_get meta "m" "audio.ogg" in
  let illustrator := meta_get meta "illustrator" "" in
  let keycount := if four_key then "4" else "6" in
  let bg_file := meta_get meta "bg" "" in
  [ "osu file format v14"; "";
    "[General]";
    "AudioFilename: " ++ Py.basename audio_file;
    "AudioLeadIn: 0"; "PreviewTime: -1"; "Countdown: 0"; "SampleSet: Normal";
    "StackLeniency: 0.7"; "Mode: 3"; "LetterboxInBreaks: 0"; "SpecialStyle: 0";
    "WidescreenStoryboard: 0"; "";
    "[Editor]";
    "DistanceSpacing: 1"; "BeatDivisor: 4"; "GridSize: 4"; "TimelineZoom: 1"; "";
    "[Metadata]";
    "Title:" ++ title; "TitleUnicode:" ++ title;
    "Artist:" ++ artist; "ArtistUnicode:" ++ artist;
    "Creator:" ++ creator;
    "Version:" ++ version ++ " " ++ keycount ++ "K";
    "Source:";
    Py.strip ("Tags:" ++ illustrator ++ " " ++ keycount ++ "K KSH");
    "BeatmapID:0"; "BeatmapSetID:-1"; "";
    "[Difficulty]";
    "HPDrainRate:7"; "CircleSize:" ++ keycount; "OverallDifficulty:8";
    "ApproachRate:5"; "SliderMultiplier:1.4"; "SliderTickRate:1"; "";
    "[Events]";
    "//Background and Video events"; "//Break Periods";
    "//Storyboard Layer 0 (Background)"; "//Storyboard Layer 1 (Fail)";
    "//Storyboard Layer 2 (Pass)"; "//Storyboard Layer 3 (Foreground)";
    "//Storyboard Layer 4 (Overlay)"; "//Storyboard Sound Samples" ]
  ++ (if String.eqb bg_file "" then []
      else ["0,0," ++ String (ascii_of_nat 34) (Py.basename bg_file)
            ++ String (ascii_of_nat 34) ",0,0"]).

(** [lines] after them. *)
Definition osu_lines (meta : gmap string string)
    (timing_points hit_objects : list string) : list string :=
  osu_head meta
  ++ [""; "[TimingPoints]"]
  ++ timing_points
  ++ [""; "[HitObjects]"]
  ++ hit_objects.

Definition create_osu_content (meta : gmap string string)
    (timing_points hit_objects : list string) : string :=
  Py.join (String (ascii_of_nat 10) "") (osu_lines meta timing_points hit_objects).

(** *** convert_ksh_to_osu, between reading and writing the files *)

Definition convert (lines : list string) : result string :=
  let '(meta, chart_start) := parse_ksh_metadata lines in
  '(timing_points, hit_objects) ← parse_chart_data lines chart_start meta;
  Ok (create_osu_content meta timing_points hit_objects).

End KSHConverter.

(** ** Reference definitions

    What the specification says, in its own words, for comparison with the
    code above. *)

(** The Extractor in the words of its contract: the lines before the first
    delimiter, each split at its first [=]. *)
Module MetadataSpec.

Fixpoint header_lines (lines : list string) : list string :=
  match lines with
  | [] => []
  | raw :: lines' =>
      if String.eqb (Py.strip raw) "--" then []
      else Py.strip raw :: header_lines lines'
  end.

Fixpoint before (c : ascii) (s : string) : string :=
  match s with
  | EmptyString => EmptyString
  | String d s' => if Ascii.eqb d c then EmptyString else String d (before c s')
  end.

Fixpoint after (c : ascii) (s : string) : string :=
  match s with
  | EmptyString => EmptyString
  | String d s' => if Ascii.eqb d c then s' else after c s'
  end.

Definition strip_bom (key : string) : string :=
  if Py.startswith bom key then Py.drop 3 key else key.

Definition key_of (line : string) : string :=
  strip_bom (Py.strip (before "=" line)).

Definition value_of (line : string) : string :=
  Py.strip (after "=" line).

Definition insert_line (meta : gmap string string) (line : string)
  : gmap string string :=
  if Py.contains "=" line && negb (Py.startswith "#" line)
  then <[key_of line := value_of line]> meta
  else meta.

End MetadataSpec.

(** The columns with an open hold and the time each hold started, in the
    order of the table. *)
Definition open_holds (hs : list (option Z)) : list (nat * Z) :=
  omap (fun p => match p.2 with Some s => Some (p.1, s) | None => None end)
       (items hs).

(** The hold event that force-closes a column at the final time. *)
Definition forced_close (four_key : bool) (final_time : Z) (p : nat * Z)
  : hit_object :=
  Hold (lane_x_pos four_key p.1) p.2 final_time.

(** The state [parse_chart_data] hands to [close_remaining_holds]. *)
Definition after_last_measure (four_key : bool) (custom_offset_ms : Z)
    (lines : list string) (start_idx : nat) (meta : gmap string string)
  : result timeline :=
  st ← initial_timeline four_key custom_offset_ms meta;
  measures_loop four_key (drop start_idx lines) st (enter_measure st).

(** The inner loop over the lines of one measure (none is the delimiter). *)
Fixpoint collect_lines (lines : list string) (st : timeline) (m : measure)
  : result (timeline * measure) :=
  match lines with
  | [] => Ok (st, m)
  | raw :: lines' =>
      '(st', m') ← collect_line (Py.strip raw) st m;
      collect_lines lines' st' m'
  end.

(** One iteration of the outer loop: enter the measure, collect its lines,
    process it. *)
Definition run_measure (four_key : bool) (lines : list string) (st : timeline)
  : result timeline :=
  '(st', m) ← collect_lines lines st (enter_measure st);
  finish_measure four_key st' m.

Definition is_delimiter (raw : string) : bool := String.eqb (Py.strip raw) "--".

(** A note-data line: it has a separator and is not a control line. *)
Definition is_note_data (raw : string) : bool :=
  Py.contains "|" (Py.strip raw) && negb (Py.contains "=" (Py.strip raw)).

(** A tempo-change line that takes effect at tempo [bpm]: the new tempo, if
    the line is a [t=] line whose value parses and differs from [bpm] by
    more than 0.001. *)
Definition tempo_change (bpm : Q) (raw : string) : option Q :=
  let line := Py.strip raw in
  if Py.startswith "t=" line then
    match Py.float_of_str (Py.drop 2 line) with
    | Ok new_bpm =>
        if Py.gt (Qabs (new_bpm - bpm)) (1 # 1000) then Some new_bpm else None
    | Raise _ => None
    end
  else None.

(** The tempo changes of a chart body, in order, starting at tempo [bpm]. *)
Fixpoint tempo_changes (bpm : Q) (lines : list string) : list Q :=
  match lines with
  | [] => []
  | raw :: lines' =>
      match tempo_change bpm raw with
      | Some new_bpm => new_bpm :: tempo_changes new_bpm lines'
      | None => tempo_changes bpm lines'
      end
  end.






(** Two lines that agree on what the converter reads of a note-data line:
    the first four characters of the first segment, the first two of the
    second, and whether there is a separator at all. *)
Definition same_columns (l l' : string) : Prop :=
  Py.take 4 (bt_part l) = Py.take 4 (bt_part l')
  /\ Py.take 2 (fx_part l) = Py.take 2 (fx_part l')
  /\ Py.contains "|" l = Py.contains "|" l'.

(** Two lines with at least two separators each, [b|f|rest] and
    [b'|f'|rest'], that agree on positions 0-3 of the button segment and on
    positions 0-1 of the effect segment. *)
Inductive laser_variant : string -> string -> Prop :=
| LaserVariant (b f rest b' f' rest' : string) :
    Py.contains "|" b = false -> Py.contains "|" f = false ->
    Py.contains "|" b' = false -> Py.contains "|" f' = false ->
    Py.take 4 b = Py.take 4 b' -> Py.take 2 f = Py.take 2 f' ->
    laser_variant (b ++ "|" ++ f ++ "|" ++ rest)%string
                  (b' ++ "|" ++ f' ++ "|" ++ rest')%string.

(** ** Assertions on computations that may raise *)

(** [returns m Q]: [m] returns normally with a value satisfying [Q]. *)
Definition returns {A} (m : result A) (Q : A -> Prop) : Prop :=
  match m with Ok a => Q a | Raise _ => False end.

(** [if_returns m Q]: if [m] returns normally, its value satisfies [Q]. *)
Definition if_returns {A} (m : result A) (Q : A -> Prop) : Prop :=
  match m with Ok a => Q a | Raise _ => True end.

(** The hold table has one entry per column. *)
Definition wf (four_key : bool) (ns : notes) : Prop :=
  length (hold_state ns) = num_lanes four_key.

(** ** Times of events *)




(** The value of a [beat=] line, as [beat_line] reads it. *)
Definition beat_value (line : string) : result Z :=
  let beat_str := Py.drop 5 line in
  if Py.contains "/" beat_str then
    Py.int_of_str (List.hd "" (Py.split "/" beat_str))
  else Py.int_of_str beat_str.






(** Metadata extraction followed by timeline construction, as
    [convert_ksh_to_osu] chains them. *)
Definition timeline_of (four_key : bool) (custom_offset_ms : Z)
    (lines : list string) : result timeline :=
  let '(meta, chart_start) := parse_ksh_metadata lines in
  build_timeline four_key custom_offset_ms lines chart_start meta.

(** ** Holds across a measure boundary *)

(** The notes [ns'] come from [ns] by emitting further events. *)
Definition extends (four_key : bool) (ns ns' : notes) : Prop :=
  wf four_key ns' /\ hit_objects ns `prefix_of` hit_objects ns'.

(** The event [h] was emitted after the notes were [ns]. *)
Definition emitted_since (ns : notes) (h : hit_object) (ns' : notes) : Prop :=
  h ∈ drop (length (hit_objects ns)) (hit_objects ns').

(** The number of characters read of a segment. *)
Definition segment_width (is_fx : bool) : nat := if is_fx then 2%nat else 4%nat.

Definition segment (is_fx : bool) (line : string) : string :=
  if is_fx then fx_part line else bt_part line.

(** A character that denotes "empty", in either segment. *)
Definition is_empty_char (c : ascii) : Prop := c = "0"%char \/ c = " "%char.

(** Since the notes were [ns], events were only added, [h] among them. *)
Definition closed_since (four_key : bool) (ns : notes) (h : hit_object)
    (ns' : notes) : Prop :=
  extends four_key ns ns' /\ emitted_since ns h ns'.

(** ** Further reference definitions *)

(** The x coordinate of a hit object. *)
Definition event_x (h : hit_object) : Z :=
  match h with
  | Tap x _ => x
  | Hold x _ _ => x
  end.

(** osu!mania's reading of an x coordinate, as the docstring of
    [lane_x_pos] quotes it: [column = floor(x * columnCount / 512)]. *)
Definition osu_column (four_key : bool) (x : Z) : Z :=
  x * Z.of_nat (num_lanes four_key) / 512.

(** A hit object that sits in the middle of one of the columns. *)
Definition in_column (four_key : bool) (h : hit_object) : Prop :=
  exists lane, (lane < num_lanes four_key)%nat
               /\ event_x h = lane_x_pos four_key lane.

Definition columns_ok (four_key : bool) (ns : notes) : Prop :=
  wf four_key ns /\ Forall (in_column four_key) (hit_objects ns).

(** A header line that makes an entry in the metadata. *)
Definition inserts (line : string) : bool :=
  Py.contains "=" line && negb (Py.startswith "#" line).

(** A chart-body line the measure loop passes over: blank, an [fx-l=] or
    [fx-r=] line, or any other control line that is neither a tempo nor a
    time-signature line. *)
Definition is_ignored (raw : string) : bool :=
  let line := Py.strip raw in
  String.eqb line ""
  || Py.startswith "fx-l=" line || Py.startswith "fx-r=" line
  || (Py.contains "=" line && negb (Py.startswith "t=" line)
      && negb (Py.startswith "beat=" line)).

(** A tempo is zero. *)
Definition is_zero (q : Q) : bool := Qeq_bool q 0.

(** The digits of the two segments: a tap is [1] on a button lane and
    [2] on an effect lane, a hold the other way round. *)
Definition tap_char (is_fx : bool) : ascii := if is_fx then "2"%char else "1"%char.
Definition hold_char (is_fx : bool) : ascii := if is_fx then "1"%char else "2"%char.

(** The note rule of a segment. *)
Definition process_note (four_key is_fx : bool) :
    ascii -> nat -> Z -> notes -> result notes :=
  if is_fx then process_fx_note four_key else process_bt_note four_key.

(** The hold event that closes a column, if its hold is open. *)
Definition closing_event (x time : Z) (o : option Z) : list hit_object :=
  match o with
  | Some start_time => [Hold x start_time time]
  | None => []
  end.

(** A character that is none of [0], [1], [2] and the space. *)
Definition is_other_char (c : ascii) : bool :=
  negb (Ascii.eqb c "0" || Ascii.eqb c "1" || Ascii.eqb c "2" || Ascii.eqb c " ").

(** A hold event that ends at [time]. *)
Definition is_hold_until (time : Z) (h : hit_object) : Prop :=
  exists x start_time, h = Hold x start_time time.

(** From [ns] to [ns'] holds were closed at [time] and nothing else
    happened: the new events are holds ending at [time], and every hold
    open in [ns'] was open in [ns] with the same start. *)
Definition only_closes (four_key : bool) (time : Z) (ns ns' : notes) : Prop :=
  wf four_key ns'
  /\ (exists new, hit_objects ns' = (hit_objects ns ++ new)%list
                  /\ Forall (is_hold_until time) new)
  /\ forall lane s, hold_state ns' !! lane = Some (Some s) ->
                    hold_state ns !! lane = Some (Some s).

(** ** The column of a hold, line by line *)

(** What a note rule does to the column of its character: the new entry of
    the hold table and the events it emits, from the character, the
    coordinate and the line time, and the entry [o] it finds. *)
Definition note_effect (is_fx : bool) (c : ascii) (x time : Z) (o : option Z)
  : option Z * list hit_object :=
  if Ascii.eqb c (tap_char is_fx) then (None, (closing_event x time o ++ [Tap x time])%list)
  else if Ascii.eqb c (hold_char is_fx) then (Some (default time o), [])
  else if Ascii.eqb c "0" || Ascii.eqb c " " then (None, closing_event x time o)
  else (o, []).

(** The events of [l] that sit on column [lane]. *)
Definition column_events (four_key : bool) (lane : nat) (l : list hit_object)
  : list hit_object :=
  List.filter (fun h => (event_x h =? lane_x_pos four_key lane)%Z) l.

(** From [ns] to [ns'] the hold of column [lane], open since [s], stayed
    open, and no event was emitted on the column. *)
Definition open_through (four_key : bool) (lane : nat) (s : Z)
    (ns ns' : notes) : Prop :=
  wf four_key ns'
  /\ hold_state ns' !! lane = Some (Some s)
  /\ exists new, hit_objects ns' = (hit_objects ns ++ new)%list
                 /\ column_events four_key lane new = [].

(** From [ns] to [ns'] the hold of column [lane], open since [s], was closed
    at [time]: the column's entry of the hold table is [None], and on the
    column exactly one event was emitted, the hold from [s] to [time]. *)
Definition closed_by (four_key : bool) (lane : nat) (s time : Z)
    (ns ns' : notes) : Prop :=
  wf four_key ns'
  /\ hold_state ns' !! lane = Some None
  /\ exists new, hit_objects ns' = (hit_objects ns ++ new)%list
                 /\ column_events four_key lane new
                    = [Hold (lane_x_pos four_key lane) s time].

(** The time between two note-data lines of a measure of [n] such lines,
    at the tempo and the time signature of the state [st']. *)
Definition line_duration_of (st' : timeline) (n : nat) : Q :=
  (60000 / current_bpm st' * inject_Z (beats_per_measure st')
   / inject_Z (Z.of_nat n))%Q.


(** The state a measure ends in, given the notes it leaves: the tempo and
    the time signature of the end of its collection, the time advanced by
    the measure's duration. *)
Definition measure_end (st' : timeline) (start : Q) (ns : notes) : timeline :=
  Timeline (current_bpm st') (beats_per_measure st')
    (start + 60000 / current_bpm st' * inject_Z (beats_per_measure st'))%Q
    (ms_per_beat st') (timing_points st') ns.

(** * Verification *)

Local Open Scope list_scope.

(** ** Metadata Extractor *)

Lemma split1_contains (c : ascii) (s : string) :
  Py.contains c s = true ->
  Py.split1 c s = [MetadataSpec.before c s; MetadataSpec.after c s].
Proof.
  induction s as [|d s IH]; simpl; [discriminate|].
  rewrite (Ascii.eqb_sym c d).
  destruct (Ascii.eqb d c); [reflexivity|].
  intros H. rewrite (IH H). reflexivity.
Qed.

Lemma metadata_line_spec (line : string) (meta : gmap string string) :
  metadata_line line meta = MetadataSpec.insert_line meta line.
Proof.
  unfold metadata_line, MetadataSpec.insert_line.
  destruct (Py.contains "=" line) eqn:E; [|reflexivity].
  destruct (Py.startswith "#" line); [reflexivity|]. simpl.
  rewrite (split1_contains _ _ E). reflexivity.
Qed.

Lemma metadata_loop_spec (lines : list string) :
  forall i meta,
    fst (metadata_loop lines i meta)
    = foldl MetadataSpec.insert_line meta (MetadataSpec.header_lines lines).
Proof.
  induction lines as [|raw lines IH]; intros i meta; simpl; [reflexivity|].
  destruct (String.eqb (Py.strip raw) "--"); simpl; [reflexivity|].
  rewrite IH, metadata_line_spec. reflexivity.
Qed.

(** The index returned with the mapping: the line after the first
    delimiter, or the end of the input. *)
Lemma metadata_loop_index (lines : list string) :
  forall i meta,
    snd (metadata_loop lines i meta)
    = (i + (let n := length (MetadataSpec.header_lines lines) in
            if (n <? length lines)%nat then S n else n))%nat.
Proof.
  induction lines as [|raw lines IH]; intros i meta; simpl; [lia|].
  destruct (String.eqb (Py.strip raw) "--"); simpl; [lia|].
  rewrite IH. simpl.
  change (S (length (MetadataSpec.header_lines lines)) <? S (length lines))%nat
    with (length (MetadataSpec.header_lines lines) <? length lines)%nat.
  destruct (_ <? _)%nat; lia.
Qed.

(** C9, as the code has it.  The mapping is the left fold, over the
    stripped lines before the first delimiter, of: a line that contains [=]
    and does not start with [#] inserts its trimmed, BOM-free key (the text
    before the first [=]) with its trimmed value (the text after it),
    overwriting an earlier entry; any other line inserts nothing.  A line
    with an empty key is not skipped: it is inserted under the empty key. *)
Theorem parse_ksh_metadata_is_fold (lines : list string) :
  fst (parse_ksh_metadata lines)
  = foldl MetadataSpec.insert_line ∅ (MetadataSpec.header_lines lines).
Proof. apply metadata_loop_spec. Qed.

(** C9 as stated fails: the line [=v] has an empty key and is inserted. *)
Lemma empty_key_is_inserted :
  fst (parse_ksh_metadata ["=v"; "title=a"; "--"]) !! "" = Some "v".
Proof. vm_compute. reflexivity. Qed.

(** ** Malformed numbers in the header *)

(** C8 at a header whose [t] field is a tempo range, as charts with tempo
    changes have it: [float] raises and nothing catches it. *)
Theorem header_tempo_range_aborts :
  convert false 0 ["title=a"; "t=120-180"; "--"; "1000|00"; "--"]
  = Raise ValueError.
Proof. vm_compute. reflexivity. Qed.

(** The sibling paths recover: a malformed offset is 0, a malformed tempo
    or time signature in the chart body leaves the state as it is. *)
Lemma malformed_offset_is_zero (meta : gmap string string) (v : string) :
  meta !! "o" = Some v -> Py.float_of_str v = Raise ValueError ->
  header_offset meta = 0%Q.
Proof.
  intros Ho Hv. unfold header_offset. rewrite Ho. simpl.
  destruct (String.eqb v ""); [reflexivity|]. rewrite Hv. reflexivity.
Qed.

Lemma malformed_body_tempo_is_skipped (line : string) (st : timeline) :
  Py.float_of_str (Py.drop 2 line) = Raise ValueError ->
  tempo_line line st = Ok st.
Proof. intros H. unfold tempo_line. rewrite H. reflexivity. Qed.

(** ** Reasoning about computations that may raise *)

Ltac monad_simpl :=
  cbn [Py.except_ValueError mbind result_bind Py.bind mret result_ret
       returns if_returns] in *.

Lemma returns_bind {A B} (m : result A) (k : A -> result B) (Q : B -> Prop) :
  returns m (fun a => returns (k a) Q) -> returns (m ≫= k) Q.
Proof. destruct m; simpl; auto. Qed.

Lemma if_returns_bind {A B} (m : result A) (k : A -> result B) (Q : B -> Prop) :
  if_returns m (fun a => if_returns (k a) Q) -> if_returns (m ≫= k) Q.
Proof. destruct m; simpl; auto. Qed.

Lemma returns_mono {A} (m : result A) (P Q : A -> Prop) :
  (forall a, P a -> Q a) -> returns m P -> returns m Q.
Proof. destruct m; simpl; auto. Qed.

Lemma if_returns_mono {A} (m : result A) (P Q : A -> Prop) :
  (forall a, P a -> Q a) -> if_returns m P -> if_returns m Q.
Proof. destruct m; simpl; auto. Qed.

Lemma returns_if_returns {A} (m : result A) (Q : A -> Prop) :
  returns m Q -> if_returns m Q.
Proof. destruct m; simpl; auto. Qed.

Lemma returns_Ok {A} (m : result A) (Q : A -> Prop) :
  returns m Q <-> exists a, m = Ok a /\ Q a.
Proof.
  destruct m; simpl; split.
  - eauto.
  - intros (b & [= ->] & H). exact H.
  - intros [].
  - intros (b & H & _). discriminate.
Qed.

Lemma if_returns_Ok {A} (m : result A) (Q : A -> Prop) (a : A) :
  if_returns m Q -> m = Ok a -> Q a.
Proof. intros H ->. exact H. Qed.

Lemma bind_Ok {A B} (m : result A) (k : A -> result B) (b : B) :
  m ≫= k = Ok b -> exists a, m = Ok a /\ k a = Ok b.
Proof. destruct m; simpl; [eauto | discriminate]. Qed.

(** ** Lane mapper *)

Lemma ksh_to_osu_lane_lt (four_key is_fx : bool) (idx lane : nat) :
  ksh_to_osu_lane four_key is_fx idx = Some lane ->
  (lane < num_lanes four_key)%nat.
Proof.
  unfold ksh_to_osu_lane, num_lanes.
  destruct four_key, is_fx; intros [= <-]; try destruct (idx =? 0)%nat; lia.
Qed.

(** ** The hold table keeps its size *)

Section WellFormed.

Variable four_key : bool.

Lemma hold_get_wf (ns : notes) (lane : nat) :
  wf four_key ns -> (lane < num_lanes four_key)%nat ->
  exists h, hold_get (hold_state ns) lane = Ok h
            /\ hold_state ns !! lane = Some h.
Proof.
  unfold wf, hold_get. intros Hwf Hlt.
  destruct (hold_state ns !! lane) as [h|] eqn:E; [eauto|].
  apply lookup_ge_None in E. lia.
Qed.

Lemma end_hold_wf (lane : nat) (x time : Z) (ns : notes) :
  wf four_key ns -> (lane < num_lanes four_key)%nat ->
  returns (end_hold lane x time ns) (wf four_key).
Proof.
  intros Hwf Hlt. unfold end_hold.
  destruct (hold_get_wf ns lane Hwf Hlt) as (h & -> & _). simpl.
  destruct h; simpl; [|exact Hwf].
  unfold wf. simpl. rewrite length_insert. exact Hwf.
Qed.

Lemma begin_hold_wf (lane : nat) (time : Z) (ns : notes) :
  wf four_key ns -> (lane < num_lanes four_key)%nat ->
  returns (begin_hold lane time ns) (wf four_key).
Proof.
  intros Hwf Hlt. unfold begin_hold.
  destruct (hold_get_wf ns lane Hwf Hlt) as (h & -> & _). simpl.
  destruct h; simpl; [exact Hwf|].
  unfold wf. simpl. rewrite length_insert. exact Hwf.
Qed.

Lemma process_bt_note_wf (char : ascii) (idx : nat) (time : Z) (ns : notes) :
  wf four_key ns -> returns (process_bt_note four_key char idx time ns) (wf four_key).
Proof.
  intros Hwf. unfold process_bt_note.
  destruct (ksh_to_osu_lane four_key false idx) as [lane|] eqn:E; [|exact Hwf].
  apply ksh_to_osu_lane_lt in E.
  repeat case_match; try exact Hwf;
    try (apply end_hold_wf; assumption); try (apply begin_hold_wf; assumption).
  apply returns_bind.
  eapply returns_mono; [|apply end_hold_wf; eassumption].
  intros ns' Hns'. exact Hns'.
Qed.

Lemma process_fx_note_wf (char : ascii) (idx : nat) (time : Z) (ns : notes) :
  wf four_key ns -> returns (process_fx_note four_key char idx time ns) (wf four_key).
Proof.
  intros Hwf. unfold process_fx_note.
  destruct (ksh_to_osu_lane four_key true idx) as [lane|] eqn:E; [|exact Hwf].
  apply ksh_to_osu_lane_lt in E.
  repeat case_match; try exact Hwf;
    try (apply end_hold_wf; assumption); try (apply begin_hold_wf; assumption).
  apply returns_bind.
  eapply returns_mono; [|apply end_hold_wf; eassumption].
  intros ns' Hns'. exact Hns'.
Qed.

(** The loops: an assertion kept by the body is kept by the loop. *)
Lemma for_chars_returns (P : notes -> Prop) (limit : nat)
    (body : nat -> ascii -> notes -> result notes) :
  (forall idx c ns, P ns -> returns (body idx c ns) P) ->
  forall s idx ns, P ns -> returns (for_chars limit body idx s ns) P.
Proof.
  intros Hbody. induction s as [|c s IH]; intros idx ns HP; simpl; [exact HP|].
  destruct (limit <=? idx)%nat; [exact HP|].
  apply returns_bind. eapply returns_mono; [|apply Hbody; exact HP].
  intros ns' HP'. apply IH. exact HP'.
Qed.

Lemma for_lines_returns (P : notes -> Prop)
    (body : nat -> string -> notes -> result notes) :
  (forall idx l ns, P ns -> returns (body idx l ns) P) ->
  forall ls idx ns, P ns -> returns (for_lines body idx ls ns) P.
Proof.
  intros Hbody. induction ls as [|l ls IH]; intros idx ns HP; simpl; [exact HP|].
  apply returns_bind. eapply returns_mono; [|apply Hbody; exact HP].
  intros ns' HP'. apply IH. exact HP'.
Qed.

Lemma process_line_wf (start_time line_duration : Q) (idx : nat)
    (line : string) (ns : notes) :
  wf four_key ns ->
  returns (process_line four_key start_time line_duration idx line ns) (wf four_key).
Proof.
  intros Hwf. unfold process_line. apply returns_bind.
  eapply returns_mono; [|apply for_chars_returns with (P := wf four_key); [|exact Hwf]].
  - intros ns' Hwf'. apply for_chars_returns; [|exact Hwf'].
    intros. apply process_fx_note_wf. assumption.
  - intros. apply process_bt_note_wf. assumption.
Qed.

Lemma process_measure_unfold (note_lines : list string) (start_time bpm : Q)
    (beats : Z) (ns : notes) (next : option (list string)) :
  note_lines <> [] ->
  process_measure_with_lookahead four_key note_lines start_time bpm beats ns next
  = (q ← Py.truediv 60000 bpm;
     let measure_duration := (q * inject_Z beats)%Q in
     line_duration ← Py.truediv measure_duration
                       (inject_Z (Z.of_nat (length note_lines)));
     ns1 ← for_lines (process_line four_key start_time line_duration) 0
             note_lines ns;
     ns2 ← match next with
           | Some (l :: ls) =>
               check_cross_measure_holds four_key ns1 (l :: ls)
                 (Py.int_of_float (start_time + measure_duration))
           | _ => Ok ns1
           end;
     Ok (ns2, (start_time + measure_duration)%Q)).
Proof. destruct note_lines; [congruence | reflexivity]. Qed.

Lemma process_measure_wf (note_lines : list string) (start_time bpm : Q)
    (beats : Z) (ns : notes) :
  wf four_key ns ->
  if_returns (process_measure four_key note_lines start_time bpm beats ns)
             (fun r => wf four_key r.1).
Proof.
  intros Hwf. unfold process_measure.
  destruct (decide (note_lines = [])) as [->|Hne]; [exact Hwf|].
  rewrite process_measure_unfold by exact Hne.
  apply if_returns_bind.
  destruct (Py.truediv 60000 bpm) as [q|]; [|exact I]. cbn [if_returns].
  apply if_returns_bind.
  destruct (Py.truediv _ (inject_Z _)) as [d|]; [|exact I]. cbn [if_returns].
  apply if_returns_bind. apply returns_if_returns.
  eapply returns_mono; [|apply for_lines_returns with (P := wf four_key); [|exact Hwf]].
  - intros ns' Hwf'. exact Hwf'.
  - intros. apply process_line_wf. assumption.
Qed.

End WellFormed.

(** ** The measure loop *)

Section MeasureLoop.

Variable four_key : bool.

(** A control line changes neither the notes nor the clock. *)
Lemma tempo_line_frame (line : string) (st st' : timeline) :
  tempo_line line st = Ok st' ->
  tl_notes st' = tl_notes st /\ current_time st' = current_time st
  /\ beats_per_measure st' = beats_per_measure st.
Proof.
  unfold tempo_line.
  destruct (Py.float_of_str (Py.drop 2 line)) as [new_bpm|[]]; monad_simpl;
    try discriminate; [|intros [= <-]; auto].
  destruct (Py.gt _ _); monad_simpl; [|intros [= <-]; auto].
  unfold Py.truediv. destruct (Qeq_bool new_bpm 0); monad_simpl; [discriminate|].
  intros [= <-]. auto.
Qed.

Lemma beat_line_frame (line : string) (st st' : timeline) :
  beat_line line st = Ok st' ->
  tl_notes st' = tl_notes st /\ current_time st' = current_time st
  /\ current_bpm st' = current_bpm st
  /\ timing_points st' = timing_points st.
Proof.
  unfold beat_line.
  match goal with |- Py.except_ValueError (?m ≫= _) _ = _ -> _ =>
    destruct m as [n|[]] end; simpl; try discriminate; intros [= <-]; auto.
Qed.

Lemma collect_line_frame (line : string) (st st' : timeline) (m m' : measure) :
  collect_line line st m = Ok (st', m') ->
  tl_notes st' = tl_notes st /\ current_time st' = current_time st
  /\ measure_start_time m' = measure_start_time m.
Proof.
  unfold collect_line. repeat case_match; try (intros [= <- <-]; auto).
  - destruct (tempo_line line st) as [st1|] eqn:E; simpl; [|discriminate].
    intros [= <- <-]. apply tempo_line_frame in E. tauto.
  - destruct (beat_line line st) as [st1|] eqn:E; simpl; [|discriminate].
    intros [= <- <-]. apply beat_line_frame in E. tauto.
Qed.

(** An assertion kept by every step of the loop holds when it ends. *)
Lemma measures_loop_if_returns (P : timeline -> measure -> Prop) :
  (forall line st m, P st m ->
     if_returns (collect_line line st m) (fun r => P r.1 r.2)) ->
  (forall st m, P st m ->
     if_returns (finish_measure four_key st m)
                (fun st' => P st' (enter_measure st'))) ->
  forall lines st m, P st m ->
    if_returns (measures_loop four_key lines st m)
               (fun st' => P st' (enter_measure st')).
Proof.
  intros Hcollect Hfinish.
  induction lines as [|raw lines IH]; intros st m HP; simpl.
  - apply Hfinish. exact HP.
  - destruct (String.eqb (Py.strip raw) "--").
    + apply if_returns_bind. eapply if_returns_mono; [|apply Hfinish; exact HP].
      intros st' HP'. apply IH. exact HP'.
    + apply if_returns_bind. eapply if_returns_mono; [|apply Hcollect; exact HP].
      intros [st' m'] HP'. apply IH. exact HP'.
Qed.

Lemma finish_measure_wf (st : timeline) (m : measure) :
  wf four_key (tl_notes st) ->
  if_returns (finish_measure four_key st m) (fun st' => wf four_key (tl_notes st')).
Proof.
  intros Hwf. unfold finish_measure.
  destruct (measure_lines m) as [|l0 ls0]; [exact Hwf|].
  destruct (List.filter _ _) as [|l ls].
  - destruct (Py.truediv _ _); simpl; [exact Hwf | exact I].
  - apply if_returns_bind.
    eapply if_returns_mono; [|apply process_measure_wf; exact Hwf].
    intros [ns t] H. exact H.
Qed.

Lemma measures_loop_wf (lines : list string) (st : timeline) (m : measure) :
  wf four_key (tl_notes st) ->
  if_returns (measures_loop four_key lines st m)
             (fun st' => wf four_key (tl_notes st')).
Proof.
  intros Hwf.
  apply (measures_loop_if_returns (fun st _ => wf four_key (tl_notes st)));
    [| |exact Hwf].
  - intros line st0 m0 H0.
    destruct (collect_line line st0 m0) as [[st1 m1]|] eqn:E; [|exact I].
    simpl. apply collect_line_frame in E as (-> & _). exact H0.
  - intros st0 m0 H0. apply finish_measure_wf. exact H0.
Qed.

(** *** close_remaining_holds *)

Lemma close_loop_spec (final_time : Z) (suf : list (option Z)) :
  forall (pre : list (option Z)) (ns : notes),
    hold_state ns = (pre ++ suf)%list ->
    close_loop four_key (zip (seq (length pre) (length suf)) suf) final_time ns
    = Notes (pre ++ replicate (length suf) None)%list
        (hit_objects ns
         ++ (forced_close four_key final_time <$>
             omap (fun p => match p.2 with Some s => Some (p.1, s) | None => None end)
                  (zip (seq (length pre) (length suf)) suf))).
Proof.
  induction suf as [|o suf IH]; intros pre ns Hhs; simpl.
  - rewrite !app_nil_r. destruct ns; simpl in *. rewrite app_nil_r in Hhs.
    congruence.
  - assert (Hlen : S (length pre) = length (pre ++ [None (A := Z)])%list)
      by (rewrite length_app; simpl; lia).
    destruct o as [start_time|]; simpl.
    + rewrite Hlen, IH; simpl.
      * rewrite <- app_assoc, <- app_assoc. reflexivity.
      * rewrite Hhs. rewrite <- app_assoc. simpl.
        rewrite <- (Nat.add_0_r (length pre)) at 1.
        rewrite insert_app_r. reflexivity.
    + rewrite Hlen, IH; simpl.
      * rewrite <- app_assoc. reflexivity.
      * rewrite Hhs, <- app_assoc. reflexivity.
Qed.

Lemma close_remaining_holds_spec (ns : notes) (final_time : Z) :
  close_remaining_holds four_key ns final_time
  = Notes (replicate (length (hold_state ns)) None)
      (hit_objects ns
       ++ (forced_close four_key final_time <$> open_holds (hold_state ns))).
Proof.
  unfold close_remaining_holds, open_holds, items.
  apply (close_loop_spec final_time (hold_state ns) [] ns). reflexivity.
Qed.

End MeasureLoop.

(** C3.  Whenever timeline construction finishes, every column of the hold
    table is empty, the table has one entry per column, and the hit
    objects are those emitted by the measures followed, for each column
    whose hold was still open after the last measure, in column order, by
    a hold from its start to the truncated final time. *)
Theorem holds_are_drained (four_key : bool) (custom_offset_ms : Z)
    (lines : list string) (start_idx : nat) (meta : gmap string string)
    (st : timeline) :
  build_timeline four_key custom_offset_ms lines start_idx meta = Ok st ->
  hold_state (tl_notes st) = replicate (num_lanes four_key) None
  /\ exists st0,
       after_last_measure four_key custom_offset_ms lines start_idx meta = Ok st0
       /\ hit_objects (tl_notes st)
          = hit_objects (tl_notes st0)
            ++ (forced_close four_key (Py.int_of_float (current_time st0))
                <$> open_holds (hold_state (tl_notes st0))).
Proof.
  unfold build_timeline, after_last_measure. intros H.
  apply bind_Ok in H as (st1 & Hinit & H).
  apply bind_Ok in H as (st0 & Hloop & [= <-]).
  rewrite Hinit. simpl. rewrite close_remaining_holds_spec. simpl.
  assert (Hwf1 : wf four_key (tl_notes st1)).
  { unfold initial_timeline in Hinit.
    apply bind_Ok in Hinit as (bpm & _ & Hinit).
    apply bind_Ok in Hinit as (mpb & _ & [= <-]).
    unfold wf. simpl. apply length_replicate. }
  pose proof (measures_loop_wf four_key (drop start_idx lines) _
                (enter_measure st1) Hwf1) as Hwf0.
  rewrite Hloop in Hwf0. simpl in Hwf0. unfold wf in Hwf0.
  split; [rewrite Hwf0; reflexivity|].
  exists st0. split; [exact Hloop | reflexivity].
Qed.

Lemma holds_are_drained_witness :
  exists st,
    build_timeline false 0 ["--"; "2000|10"; "2100|10"] 1 ∅ = Ok st
    /\ hold_state (tl_notes st) = replicate (num_lanes false) None
    /\ exists st0,
         after_last_measure false 0 ["--"; "2000|10"; "2100|10"] 1 ∅ = Ok st0
         /\ hit_objects (tl_notes st)
            = hit_objects (tl_notes st0)
              ++ (forced_close false (Py.int_of_float (current_time st0))
                  <$> open_holds (hold_state (tl_notes st0))).
Proof.
  eexists. split; [vm_compute; reflexivity|].
  apply (holds_are_drained false 0 ["--"; "2000|10"; "2100|10"] 1 ∅).
  vm_compute. reflexivity.
Defined.

(** ** Lines and their classification *)

Lemma startswith_inv (p l : string) :
  Py.startswith p l = true -> exists r, l = (p ++ r)%string.
Proof.
  unfold Py.startswith. revert l.
  induction p as [|a p IH]; intros l; [simpl; eauto|].
  destruct l as [|b l]; simpl; [discriminate|].
  destruct (ascii_dec a b) as [->|]; [|discriminate].
  intros H. destruct (IH l H) as [r ->]. eauto.
Qed.

Lemma contains_app_l (c : ascii) (p r : string) :
  Py.contains c p = true -> Py.contains c (p ++ r)%string = true.
Proof.
  induction p as [|a p IH]; simpl; [discriminate|].
  destruct (Ascii.eqb c a); auto.
Qed.

Lemma startswith_contains (c : ascii) (p l : string) :
  Py.contains c p = true -> Py.contains c l = false -> Py.startswith p l = false.
Proof.
  intros Hp Hl. destruct (Py.startswith p l) eqn:E; [|reflexivity].
  apply startswith_inv in E as [r ->].
  rewrite (contains_app_l _ _ _ Hp) in Hl. discriminate.
Qed.

(** A note-data line is appended to the measure and changes nothing else. *)
Lemma collect_note_data (raw : string) (st : timeline) (m : measure) :
  is_note_data raw = true ->
  collect_line (Py.strip raw) st m
  = Ok (st, Measure (measure_lines m ++ [Py.strip raw]) (measure_start_time m)
              (measure_bpm m) (measure_beats m)).
Proof.
  unfold is_note_data, collect_line. intros [Hbar Heq]%andb_prop.
  apply negb_true_iff in Heq.
  destruct (String.eqb_spec (Py.strip raw) "") as [E|_];
    [rewrite E in Hbar; discriminate|].
  rewrite (startswith_contains "=" "fx-l=" _ eq_refl Heq),
    (startswith_contains "=" "fx-r=" _ eq_refl Heq),
    (startswith_contains "=" "t=" _ eq_refl Heq),
    (startswith_contains "=" "beat=" _ eq_refl Heq), Heq.
  reflexivity.
Qed.

Lemma collect_lines_note_data (lines : list string) :
  forall (st : timeline) (m : measure),
    forallb is_note_data lines = true ->
    collect_lines lines st m
    = Ok (st, Measure (measure_lines m ++ (Py.strip <$> lines)) (measure_start_time m)
                (measure_bpm m) (measure_beats m)).
Proof.
  induction lines as [|raw lines IH]; intros st m H; simpl.
  - rewrite app_nil_r. destruct m; reflexivity.
  - apply andb_prop in H as [H1 H2].
    rewrite (collect_note_data _ _ _ H1). monad_simpl.
    rewrite (IH _ _ H2). simpl. rewrite <- app_assoc. reflexivity.
Qed.


Lemma filter_note_data (lines : list string) :
  forallb is_note_data lines = true ->
  List.filter (Py.contains "|") (Py.strip <$> lines) = Py.strip <$> lines.
Proof.
  induction lines as [|raw lines IH]; [reflexivity|].
  cbn [forallb]. intros [H1 H2]%andb_prop. unfold is_note_data in H1.
  apply andb_prop in H1 as [H1 _].
  rewrite fmap_cons. cbn [List.filter]. rewrite H1, (IH H2). reflexivity.
Qed.

(** The measure loop, one measure at a time. *)
Lemma measures_loop_last (four_key : bool) (lines : list string) :
  forall (st : timeline) (m : measure),
    existsb is_delimiter lines = false ->
    measures_loop four_key lines st m
    = ('(st', m') ← collect_lines lines st m; finish_measure four_key st' m').
Proof.
  induction lines as [|raw lines IH]; intros st m H; simpl; [reflexivity|].
  simpl in H. apply orb_false_elim in H as [H1 H2].
  unfold is_delimiter in H1. rewrite H1.
  destruct (collect_line (Py.strip raw) st m) as [[st1 m1]|]; monad_simpl;
    [|reflexivity].
  apply IH. exact H2.
Qed.

Lemma measures_loop_measure (four_key : bool) (lines rest : list string) :
  forall (st : timeline) (m : measure),
    existsb is_delimiter lines = false ->
    measures_loop four_key (lines ++ "--" :: rest) st m
    = ('(st', m') ← collect_lines lines st m;
       st'' ← finish_measure four_key st' m';
       measures_loop four_key rest st'' (enter_measure st'')).
Proof.
  induction lines as [|raw lines IH]; intros st m H; simpl; [reflexivity|].
  simpl in H. apply orb_false_elim in H as [H1 H2].
  unfold is_delimiter in H1. rewrite H1.
  destruct (collect_line (Py.strip raw) st m) as [[st1 m1]|]; monad_simpl;
    [|reflexivity].
  apply IH. exact H2.
Qed.

(** The measure loop runs the measures one after the other. *)
Lemma measures_loop_run_measure (four_key : bool) (lines rest : list string)
    (st : timeline) :
  existsb is_delimiter lines = false ->
  measures_loop four_key (lines ++ "--" :: rest) st (enter_measure st)
  = (st' ← run_measure four_key lines st;
     measures_loop four_key rest st' (enter_measure st')).
Proof.
  intros H. rewrite (measures_loop_measure _ _ _ _ _ H). unfold run_measure.
  destruct (collect_lines lines st (enter_measure st)) as [[st1 m1]|];
    reflexivity.
Qed.

Lemma measures_loop_run_last (four_key : bool) (lines : list string)
    (st : timeline) :
  existsb is_delimiter lines = false ->
  measures_loop four_key lines st (enter_measure st) = run_measure four_key lines st.
Proof. intros H. apply (measures_loop_last _ _ _ _ H). Qed.

Lemma collect_lines_frame (lines : list string) :
  forall (st st' : timeline) (m m' : measure),
    collect_lines lines st m = Ok (st', m') ->
    tl_notes st' = tl_notes st /\ current_time st' = current_time st
    /\ measure_start_time m' = measure_start_time m.
Proof.
  induction lines as [|raw lines IH]; intros st st' m m'; simpl.
  - intros [= <- <-]. auto.
  - intros H. apply bind_Ok in H as ([st1 m1] & H1 & H2).
    apply collect_line_frame in H1 as (E1 & E2 & E3).
    apply IH in H2 as (F1 & F2 & F3). repeat split; congruence.
Qed.

(** ** Measures without note data *)

(** C7, as the code has it.  When the lines of a measure have been
    collected and none of them is a note-data line: if no line was kept
    (the measure was blank or had control lines only) the time does not
    advance; otherwise it advances by a full measure at the tempo and the
    time signature in effect once the control lines of the measure have
    been applied. *)
Theorem empty_measure_advance (four_key : bool) (lines : list string)
    (st st' : timeline) (m : measure) :
  collect_lines lines st (enter_measure st) = Ok (st', m) ->
  List.filter (Py.contains "|") (measure_lines m) = [] ->
  Qeq_bool (current_bpm st') 0 = false ->
  run_measure four_key lines st
  = Ok match measure_lines m with
       | [] => st'
       | _ :: _ =>
           Timeline (current_bpm st') (beats_per_measure st')
             (current_time st
              + 60000 / current_bpm st' * inject_Z (beats_per_measure st'))%Q
             (ms_per_beat st') (timing_points st') (tl_notes st')
       end.
Proof.
  intros Hc Hf Hbpm. unfold run_measure. rewrite Hc. monad_simpl.
  apply collect_lines_frame in Hc as (_ & Ht & _).
  unfold finish_measure. destruct (measure_lines m) as [|l ls]; [reflexivity|].
  rewrite Hf. unfold Py.truediv. rewrite Hbpm. monad_simpl. rewrite Ht.
  reflexivity.
Qed.

Lemma empty_measure_advance_witness :
  exists st0 st1,
    initial_timeline false 0 ∅ = Ok st0
    /\ run_measure false ["t=240"; "beat=3/4"; "(rest)"] st0 = Ok st1
    /\ current_bpm st0 = 120%Q /\ beats_per_measure st0 = 4
    /\ (current_time st1 == current_time st0 + 60000 / 240 * 3)%Q.
Proof.
  eexists _, _. split; [vm_compute; reflexivity|].
  split.
  - eapply (empty_measure_advance false ["t=240"; "beat=3/4"; "(rest)"]);
      vm_compute; reflexivity.
  - vm_compute. auto.
Defined.

(** C7 as stated fails twice: after an in-measure tempo change the empty
    measure lasts 1000 ms (tempo 240), not the 2000 ms of the tempo at its
    start (120), so the tap of the next measure is at 1000; and a measure
    holding nothing but the tempo change lasts no time at all. *)
Lemma empty_measure_uses_new_tempo :
  returns (build_timeline false 0 ["--"; "t=240"; "(rest)"; "--"; "1000|00"] 1 ∅)
          (fun st => hit_objects (tl_notes st) = [Tap 128 1000])
  /\ returns (build_timeline false 0 ["--"; "t=240"; "--"; "1000|00"] 1 ∅)
             (fun st => hit_objects (tl_notes st) = [Tap 128 0]).
Proof. split; vm_compute; reflexivity. Qed.

(** ** Tempo changes *)

Lemma truediv_pos (a b : Q) : (0 < b)%Q -> Py.truediv a b = Ok (a / b)%Q.
Proof.
  intros H. unfold Py.truediv.
  destruct (Qeq_bool b 0) eqn:E; [|reflexivity].
  apply Qeq_bool_iff in E. rewrite E in H. discriminate.
Qed.

Lemma truediv_nonzero (a b : Q) :
  Qeq_bool b 0 = false -> Py.truediv a b = Ok (a / b)%Q.
Proof. intros H. unfold Py.truediv. rewrite H. reflexivity. Qed.


(** ** Tempo markers *)

Lemma tempo_change_not_tempo_line (bpm : Q) (raw : string) :
  Py.startswith "t=" (Py.strip raw) = false -> tempo_change bpm raw = None.
Proof. unfold tempo_change. intros ->. reflexivity. Qed.


(** ** Tempo changes within a measure *)












(** ** Tempo markers of a chart *)










(** ** What is read of a note-data line *)

Lemma for_chars_take (limit : nat) (body : nat -> ascii -> notes -> result notes)
    (s : string) :
  forall (idx : nat) (ns : notes),
    for_chars limit body idx s ns
    = for_chars limit body idx (Py.take (limit - idx) s) ns.
Proof.
  induction s as [|c s IH]; intros idx ns.
  - destruct (limit - idx)%nat; reflexivity.
  - destruct (limit - idx)%nat as [|k] eqn:E; simpl.
    + assert (H : (limit <=? idx)%nat = true) by (apply Nat.leb_le; lia).
      rewrite H. reflexivity.
    + destruct (limit <=? idx)%nat; [reflexivity|].
      destruct (body idx c ns) as [ns'|]; monad_simpl; [|reflexivity].
      rewrite IH. replace (limit - S idx)%nat with k by lia. reflexivity.
Qed.

Lemma split_app_bar (b r : string) :
  Py.contains "|" b = false ->
  Py.split "|" (b ++ String "|" r)%string = b :: Py.split "|" r.
Proof.
  induction b as [|c b IH]; [reflexivity|].
  change (String c b ++ String "|" r)%string
    with (String c (b ++ String "|" r))%string.
  cbn [Py.contains Py.split].
  rewrite (Ascii.eqb_sym "|" c). destruct (Ascii.eqb c "|"); [discriminate|].
  intros H. rewrite (IH H). reflexivity.
Qed.

Lemma contains_app_bar (b r : string) :
  Py.contains "|" (b ++ String "|" r)%string = true.
Proof.
  induction b as [|c b IH]; [reflexivity|].
  change (String c b ++ String "|" r)%string
    with (String c (b ++ String "|" r))%string.
  cbn [Py.contains]. destruct (Ascii.eqb "|" c); auto.
Qed.

Lemma laser_variant_same_columns (l l' : string) :
  laser_variant l l' -> same_columns l l'.
Proof.
  intros [b f rest b' f' rest' Hb Hf Hb' Hf' Eb Ef].
  unfold same_columns, bt_part, fx_part.
  change ("|" ++ f ++ "|" ++ rest)%string with (String "|" (f ++ String "|" rest)).
  change ("|" ++ f' ++ "|" ++ rest')%string
    with (String "|" (f' ++ String "|" rest')).
  rewrite !(split_app_bar b), !(split_app_bar f), !(split_app_bar b'),
    !(split_app_bar f') by assumption.
  rewrite !contains_app_bar. auto.
Qed.

Section Columns.

Variable four_key : bool.

Lemma process_line_same_columns (start_time line_duration : Q) (idx : nat)
    (l l' : string) (ns : notes) :
  same_columns l l' ->
  process_line four_key start_time line_duration idx l ns
  = process_line four_key start_time line_duration idx l' ns.
Proof.
  intros (Hb & Hf & _). unfold process_line.
  rewrite (for_chars_take 4 _ (bt_part l)), (for_chars_take 4 _ (bt_part l')).
  cbn [Nat.sub]. rewrite Hb.
  match goal with |- ?m ≫= _ = _ => destruct m as [ns'|] end;
    monad_simpl; [|reflexivity].
  rewrite (for_chars_take 2 _ (fx_part l)), (for_chars_take 2 _ (fx_part l')).
  cbn [Nat.sub]. rewrite Hf. reflexivity.
Qed.

Lemma for_lines_same_columns (start_time line_duration : Q) (ls ls' : list string) :
  Forall2 same_columns ls ls' ->
  forall (idx : nat) (ns : notes),
    for_lines (process_line four_key start_time line_duration) idx ls ns
    = for_lines (process_line four_key start_time line_duration) idx ls' ns.
Proof.
  induction 1 as [|l l' ls ls' Hl _ IH]; intros idx ns; simpl; [reflexivity|].
  rewrite (process_line_same_columns _ _ _ l l' _ Hl).
  destruct (process_line _ _ _ _ l' ns) as [ns'|]; monad_simpl; [|reflexivity].
  apply IH.
Qed.

Lemma find_same_columns (ls ls' : list string) :
  Forall2 same_columns ls ls' ->
  option_Forall2 (fun l l' => same_columns l l' /\ Py.contains "|" l = true)
    (List.find (Py.contains "|") ls) (List.find (Py.contains "|") ls').
Proof.
  induction 1 as [|l l' ls ls' Hl _ IH]; simpl; [constructor|].
  pose proof Hl as (_ & _ & <-).
  destruct (Py.contains "|" l) eqn:E; [|exact IH].
  constructor. auto.
Qed.

Lemma check_cross_measure_holds_same_columns (ns : notes) (ls ls' : list string)
    (measure_end_time : Z) :
  Forall2 same_columns ls ls' ->
  check_cross_measure_holds four_key ns ls measure_end_time
  = check_cross_measure_holds four_key ns ls' measure_end_time.
Proof.
  intros H. unfold check_cross_measure_holds.
  destruct (find_same_columns _ _ H) as [l l' [(Hb & Hf & Hc) Hbar]|];
    [|reflexivity].
  assert (E : String.eqb l "" = false)
    by (destruct l; [discriminate | reflexivity]).
  assert (E' : String.eqb l' "" = false)
    by (rewrite Hc in Hbar; destruct l'; [discriminate | reflexivity]).
  rewrite E, E'.
  rewrite (for_chars_take 4 _ (bt_part l)), (for_chars_take 4 _ (bt_part l')).
  cbn [Nat.sub]. rewrite Hb.
  match goal with |- ?m ≫= _ = _ => destruct m as [ns'|] end;
    monad_simpl; [|reflexivity].
  rewrite (for_chars_take 2 _ (fx_part l)), (for_chars_take 2 _ (fx_part l')).
  cbn [Nat.sub]. rewrite Hf. reflexivity.
Qed.

Lemma process_measure_same_columns (ls ls' : list string) (start_time bpm : Q)
    (beats : Z) (ns : notes) (next next' : option (list string)) :
  Forall2 same_columns ls ls' ->
  option_Forall2 (Forall2 same_columns) next next' ->
  process_measure_with_lookahead four_key ls start_time bpm beats ns next
  = process_measure_with_lookahead four_key ls' start_time bpm beats ns next'.
Proof.
  intros Hls Hnext.
  destruct Hls as [|l l' ls ls' Hl Hls]; [reflexivity|].
  assert (Hall : Forall2 same_columns (l :: ls) (l' :: ls')) by (constructor; assumption).
  rewrite !process_measure_unfold by discriminate.
  rewrite (Forall2_length _ _ _ Hall).
  destruct (Py.truediv 60000 bpm) as [q|]; monad_simpl; [|reflexivity].
  match goal with |- ?m ≫= _ = _ => destruct m as [d|] end;
    monad_simpl; [|reflexivity].
  rewrite (for_lines_same_columns _ _ _ _ Hall).
  destruct (for_lines _ 0 (l' :: ls') ns) as [ns1|]; monad_simpl; [|reflexivity].
  destruct Hnext as [nx nx' Hnx|]; [|reflexivity].
  destruct Hnx as [|n n' nx nx' Hn Hnx]; [reflexivity|].
  rewrite (check_cross_measure_holds_same_columns ns1 (n :: nx) (n' :: nx'));
    [reflexivity | constructor; assumption].
Qed.

End Columns.

(** C10.  Two measures whose lines have at least two separators each and
    agree, line by line, on positions 0-3 of the first segment and 0-1 of
    the second are processed alike, in both column modes, whatever follows
    the second separator and whatever stands at later positions of the two
    segments; the same holds for the lines handed to the boundary
    lookahead. *)
Theorem laser_segment_is_ignored (four_key : bool) (ls ls' : list string)
    (start_time bpm : Q) (beats : Z) (ns : notes) (next next' : list string) :
  Forall2 laser_variant ls ls' ->
  Forall2 laser_variant next next' ->
  process_measure four_key ls start_time bpm beats ns
  = process_measure four_key ls' start_time bpm beats ns
  /\ process_measure_with_lookahead four_key ls start_time bpm beats ns (Some next)
     = process_measure_with_lookahead four_key ls' start_time bpm beats ns (Some next')
  /\ forall measure_end_time,
       check_cross_measure_holds four_key ns next measure_end_time
       = check_cross_measure_holds four_key ns next' measure_end_time.
Proof.
  intros Hls Hnext.
  assert (Hls' : Forall2 same_columns ls ls')
    by (eapply Forall2_impl; [exact Hls | exact laser_variant_same_columns]).
  assert (Hnext' : Forall2 same_columns next next')
    by (eapply Forall2_impl; [exact Hnext | exact laser_variant_same_columns]).
  repeat split.
  - apply process_measure_same_columns; [exact Hls' | constructor].
  - apply process_measure_same_columns; [exact Hls' | constructor; exact Hnext'].
  - intros e. apply check_cross_measure_holds_same_columns. exact Hnext'.
Qed.

Lemma laser_segment_is_ignored_witness :
  process_measure false ["2010|10|0--0"; "0100|02|m--A"] 0 120 4
    (Notes (replicate 6 None) [])
  = process_measure false ["2010|10|"; "0100|02|"] 0 120 4
      (Notes (replicate 6 None) [])
  /\ process_measure_with_lookahead true ["2010|10|0--0"; "0100|02|m--A"] 0 120 4
       (Notes (replicate 4 None) []) (Some ["0000|00|--"])
     = process_measure_with_lookahead true ["2010|10|"; "0100|02|"] 0 120 4
         (Notes (replicate 4 None) []) (Some ["0000|00|"]).
Proof.
  assert (H1 : Forall2 laser_variant ["2010|10|0--0"; "0100|02|m--A"]
                 ["2010|10|"; "0100|02|"]).
  { constructor; [|constructor; [|constructor]].
    - exact (LaserVariant "2010" "10" "0--0" "2010" "10" ""
               eq_refl eq_refl eq_refl eq_refl eq_refl eq_refl).
    - exact (LaserVariant "0100" "02" "m--A" "0100" "02" ""
               eq_refl eq_refl eq_refl eq_refl eq_refl eq_refl). }
  assert (H2 : Forall2 laser_variant ["0000|00|--"] ["0000|00|"]).
  { constructor; [|constructor].
    exact (LaserVariant "0000" "00" "--" "0000" "00" ""
             eq_refl eq_refl eq_refl eq_refl eq_refl eq_refl). }
  split.
  - exact (proj1 (laser_segment_is_ignored false _ _ 0 120 4
                    (Notes (replicate 6 None) []) _ _ H1 H2)).
  - exact (proj1 (proj2 (laser_segment_is_ignored true _ _ 0 120 4
                           (Notes (replicate 4 None) []) _ _ H1 H2))).
Defined.

(** ** Truncation *)


Lemma int_of_float_le (q q' : Q) :
  (q <= q')%Q -> Py.int_of_float q <= Py.int_of_float q'.
Proof.
  unfold Py.int_of_float, Qle. destruct q as [a b], q' as [c d]. simpl. intros H.
  rewrite <- (Z.quot_mul_cancel_r a (Z.pos b) (Z.pos d)) by lia.
  rewrite <- (Z.quot_mul_cancel_r c (Z.pos d) (Z.pos b)) by lia.
  rewrite (Z.mul_comm (Z.pos d) (Z.pos b)).
  apply Z.quot_le_mono; lia.
Qed.

Lemma int_of_float_proper (q q' : Q) :
  (q == q')%Q -> Py.int_of_float q = Py.int_of_float q'.
Proof.
  intros H. apply Z.le_antisymm; apply int_of_float_le; rewrite H; apply Qle_refl.
Qed.






(** ** Notes under a clock *)

Section Timed.

Variable four_key : bool.
Variable lo : Z.














End Timed.

(** ** Charts that move forward *)

Lemma float_of_str_raises (s : string) (e : Py.exn) :
  Py.float_of_str s = Raise e -> e = ValueError.
Proof.
  unfold Py.float_of_str.
  destruct (Py.sign (Py.strip s)) as [neg s1].
  destruct (Py.digits 0 0 s1) as [[ip ilen] s2].
  destruct (match s2 with String "." s2' => Py.digits 0 0 s2' | _ => (0, 0%nat, s2) end)
    as [[fp flen] s3].
  destruct (ilen + flen)%nat; [intros [= <-]; reflexivity|].
  destruct (Py.exponent s3); intros [= <-]. reflexivity.
Qed.

Lemma int_of_str_raises (s : string) (e : Py.exn) :
  Py.int_of_str s = Raise e -> e = ValueError.
Proof.
  unfold Py.int_of_str.
  destruct (Py.sign (Py.strip s)) as [neg s1].
  destruct (Py.digits 0 0 s1) as [[v len] rest].
  destruct len; [intros [= <-]; reflexivity|].
  destruct rest; intros [= <-]. reflexivity.
Qed.

Lemma beat_value_raises (line : string) (e : Py.exn) :
  beat_value line = Raise e -> e = ValueError.
Proof. unfold beat_value. case_match; apply int_of_str_raises. Qed.

Lemma items_lookup (hs : list (option Z)) (lane : nat) (o : option Z) :
  (lane, o) ∈ items hs -> hs !! lane = Some o.
Proof.
  unfold items. intros [i Hi]%list_elem_of_lookup.
  apply lookup_zip_with_Some in Hi as (y & z & [= -> ->] & Hy & Hz).
  apply lookup_seq in Hy as [-> _]. exact Hz.
Qed.

Section Forward.

Variable four_key : bool.
Variable lo : Z.










End Forward.


(** ** Hold events *)




(** ** Order of the output *)




(** ** Holds across a measure boundary *)

Lemma ksh_to_osu_lane_inj (four_key is_fx is_fx' : bool) (idx idx' lane : nat) :
  ksh_to_osu_lane four_key is_fx idx = Some lane ->
  ksh_to_osu_lane four_key is_fx' idx' = Some lane ->
  (idx < segment_width is_fx)%nat -> (idx' < segment_width is_fx')%nat ->
  is_fx = is_fx' /\ idx = idx'.
Proof.
  unfold ksh_to_osu_lane, segment_width.
  destruct four_key, is_fx, is_fx'; try discriminate;
    intros [= <-] [= H] Hi Hi';
    repeat match goal with
           | H : context [(?i =? 0)%nat] |- _ => destruct (Nat.eqb_spec i 0)
           end; split; try reflexivity; lia.
Qed.

Lemma emitted_since_extends (four_key : bool) (ns0 ns1 ns2 : notes) (h : hit_object) :
  hit_objects ns0 `prefix_of` hit_objects ns1 ->
  emitted_since ns0 h ns1 -> extends four_key ns1 ns2 -> emitted_since ns0 h ns2.
Proof.
  unfold emitted_since. intros [k0 E0] Hin [_ [k ->]].
  rewrite E0 in *. rewrite <- app_assoc, drop_app_length in *.
  apply elem_of_app. auto.
Qed.

Section Boundary.

Variable four_key : bool.

Lemma extends_refl (ns : notes) : wf four_key ns -> extends four_key ns ns.
Proof. intros H. split; [exact H | reflexivity]. Qed.

Lemma extends_trans (ns0 ns1 ns2 : notes) :
  extends four_key ns0 ns1 -> extends four_key ns1 ns2 -> extends four_key ns0 ns2.
Proof. intros [_ H1] [Hwf H2]. split; [exact Hwf | etrans; eassumption]. Qed.

(** What a closing rule does on column [lane]: it emits at most one event
    and touches no other column. *)
Lemma end_hold_frame (lane : nat) (x time : Z) (ns : notes) :
  wf four_key ns -> (lane < num_lanes four_key)%nat ->
  returns (end_hold lane x time ns)
    (fun ns' => extends four_key ns ns'
                /\ forall lane', lane' <> lane ->
                     hold_state ns' !! lane' = hold_state ns !! lane').
Proof.
  intros Hwf Hlt. unfold end_hold.
  destruct (hold_get_wf four_key ns lane Hwf Hlt) as (h & -> & _). monad_simpl.
  destruct h as [s|]; monad_simpl.
  - split; [split|].
    + unfold wf. cbn [hold_state]. rewrite length_insert. exact Hwf.
    + cbn [hit_objects]. apply prefix_app_r. reflexivity.
    + intros lane' Hne. cbn [hold_state].
      apply list_lookup_insert_ne. congruence.
  - split; [apply extends_refl; exact Hwf | reflexivity].
Qed.

Lemma begin_hold_frame (lane : nat) (time : Z) (ns : notes) :
  wf four_key ns -> (lane < num_lanes four_key)%nat ->
  returns (begin_hold lane time ns)
    (fun ns' => extends four_key ns ns'
                /\ forall lane', lane' <> lane ->
                     hold_state ns' !! lane' = hold_state ns !! lane').
Proof.
  intros Hwf Hlt. unfold begin_hold.
  destruct (hold_get_wf four_key ns lane Hwf Hlt) as (h & -> & _). monad_simpl.
  destruct h as [s|]; monad_simpl.
  - split; [apply extends_refl; exact Hwf | reflexivity].
  - split; [split|].
    + unfold wf. cbn [hold_state]. rewrite length_insert. exact Hwf.
    + reflexivity.
    + intros lane' Hne. cbn [hold_state].
      apply list_lookup_insert_ne. congruence.
Qed.

Lemma tap_frame (x time : Z) (ns0 ns : notes) :
  extends four_key ns0 ns ->
  extends four_key ns0 (tap x time ns)
  /\ hold_state (tap x time ns) = hold_state ns.
Proof.
  intros [Hwf Hp]. split; [split|reflexivity].
  - exact Hwf.
  - unfold tap. cbn [hit_objects]. etrans; [exact Hp|].
    apply prefix_app_r. reflexivity.
Qed.

(** A note rule for position [idx] of a segment touches only the column of
    that position. *)
Lemma process_note_frame (is_fx : bool) (char : ascii) (idx : nat) (time : Z)
    (ns : notes) :
  wf four_key ns ->
  returns ((if is_fx then process_fx_note else process_bt_note)
             four_key char idx time ns)
    (fun ns' => extends four_key ns ns'
                /\ forall lane, ksh_to_osu_lane four_key is_fx idx <> Some lane ->
                     hold_state ns' !! lane = hold_state ns !! lane).
Proof.
  intros Hwf.
  assert (Hskip : extends four_key ns ns
                  /\ forall lane, ksh_to_osu_lane four_key is_fx idx <> Some lane ->
                       hold_state ns !! lane = hold_state ns !! lane)
    by (split; [apply extends_refl; exact Hwf | reflexivity]).
  destruct is_fx; unfold process_fx_note, process_bt_note;
    (destruct (ksh_to_osu_lane four_key _ idx) as [osu_lane|] eqn:E; [|exact Hskip]);
    pose proof (ksh_to_osu_lane_lt _ _ _ _ E) as Hlt;
    repeat case_match; try exact Hskip;
    try (eapply returns_mono; [|apply end_hold_frame; assumption];
         intros ns' [Hext Hfr]; split; [exact Hext|];
         intros lane Hne; apply Hfr; congruence);
    try (eapply returns_mono; [|apply begin_hold_frame; assumption];
         intros ns' [Hext Hfr]; split; [exact Hext|];
         intros lane Hne; apply Hfr; congruence);
    (apply returns_bind;
     eapply returns_mono; [|apply end_hold_frame; assumption];
     intros ns' [Hext Hfr]; monad_simpl;
     destruct (tap_frame (lane_x_pos four_key osu_lane) time ns ns' Hext)
       as [Hext' Hhs];
     split; [exact Hext'|];
     intros lane Hne; rewrite Hhs; apply Hfr; congruence).
Qed.

(** An "empty" character closes the open hold of its column at the line
    time. *)
Lemma process_note_closes (is_fx : bool) (char : ascii) (idx lane : nat)
    (time s : Z) (ns : notes) :
  wf four_key ns ->
  ksh_to_osu_lane four_key is_fx idx = Some lane ->
  is_empty_char char ->
  hold_state ns !! lane = Some (Some s) ->
  returns ((if is_fx then process_fx_note else process_bt_note)
             four_key char idx time ns)
    (fun ns' => wf four_key ns'
                /\ hit_objects ns'
                   = hit_objects ns ++ [Hold (lane_x_pos four_key lane) s time]).
Proof.
  intros Hwf Hlane Hc Hopen.
  assert (Hend : returns (end_hold lane (lane_x_pos four_key lane) time ns)
                   (fun ns' => wf four_key ns'
                      /\ hit_objects ns'
                         = hit_objects ns ++ [Hold (lane_x_pos four_key lane) s time])).
  { unfold end_hold, hold_get. rewrite Hopen. monad_simpl. split; [|reflexivity].
    unfold wf. cbn [hold_state]. rewrite length_insert. exact Hwf. }
  destruct is_fx; unfold process_fx_note, process_bt_note; rewrite Hlane;
    destruct Hc as [-> | ->]; exact Hend.
Qed.

Lemma fx_lane_not_bt_lane (idx idx' lane : nat) :
  ksh_to_osu_lane four_key true idx = Some lane ->
  ksh_to_osu_lane four_key false idx' <> Some lane.
Proof.
  unfold ksh_to_osu_lane. destruct four_key; [discriminate|].
  intros [= <-] [= H]. destruct (idx =? 0)%nat; lia.
Qed.

(** The loop over a segment, when position [idx] closes a hold. *)
Lemma for_chars_closes (limit idx : nat) (c : ascii)
    (body : nat -> ascii -> notes -> result notes) (I1 P3 : notes -> Prop) :
  (forall i ch ns, (i < limit)%nat -> i <> idx -> I1 ns -> returns (body i ch ns) I1) ->
  (forall ns, I1 ns -> returns (body idx c ns) P3) ->
  (forall i ch ns, P3 ns -> returns (body i ch ns) P3) ->
  (idx < limit)%nat ->
  forall (s : string) (k : nat) (ns : notes),
    (k <= idx)%nat -> String.get (idx - k) s = Some c -> I1 ns ->
    returns (for_chars limit body k s ns) P3.
Proof.
  intros Hother Hclose Hafter Hlt.
  induction s as [|d s IH]; intros k ns Hk Hget HI; [discriminate|].
  cbn [for_chars].
  assert (E : (limit <=? k)%nat = false) by (apply Nat.leb_gt; lia).
  rewrite E. apply returns_bind.
  destruct (idx - k)%nat as [|j] eqn:Ej; cbn [String.get] in Hget.
  - injection Hget as ->. assert (k = idx) as -> by lia.
    eapply returns_mono; [|apply Hclose; exact HI].
    intros ns' HP. apply for_chars_returns; [exact Hafter | exact HP].
  - eapply returns_mono; [|apply (Hother k d ns); [lia | lia | exact HI]].
    intros ns' HI'. apply IH; [lia | | exact HI'].
    replace (idx - S k)%nat with j by lia. exact Hget.
Qed.

Lemma closed_since_extends (ns0 ns1 ns2 : notes) (h : hit_object) :
  closed_since four_key ns0 h ns1 -> extends four_key ns1 ns2 ->
  closed_since four_key ns0 h ns2.
Proof.
  intros [Hext Hem] Hext'. split.
  - apply (extends_trans _ _ _ Hext Hext').
  - apply (emitted_since_extends four_key ns0 ns1 ns2 h); [apply Hext | exact Hem | exact Hext'].
Qed.

Lemma process_note_closed_since (is_fx : bool) (time : Z) (ns0 : notes)
    (h : hit_object) (i : nat) (ch : ascii) (ns : notes) :
  closed_since four_key ns0 h ns ->
  returns ((if is_fx then process_fx_note else process_bt_note)
             four_key ch i time ns)
          (closed_since four_key ns0 h).
Proof.
  intros H. eapply returns_mono; [|apply process_note_frame; apply H].
  intros ns' [Hext _]. apply (closed_since_extends _ _ _ _ H Hext).
Qed.

Section Segment.

Variables (ns0 : notes) (lane : nat) (s time : Z).

(** The hold of column [lane] is still open and events were only added. *)
Let still_open (ns : notes) : Prop :=
  extends four_key ns0 ns /\ hold_state ns !! lane = Some (Some s).

Let closing : hit_object := Hold (lane_x_pos four_key lane) s time.

Lemma process_note_still_open (is_fx : bool) (i : nat) (ch : ascii) (ns : notes) :
  ksh_to_osu_lane four_key is_fx i <> Some lane ->
  still_open ns ->
  returns ((if is_fx then process_fx_note else process_bt_note)
             four_key ch i time ns)
          still_open.
Proof.
  intros Hne [Hext Hopen].
  eapply returns_mono; [|apply process_note_frame; apply Hext].
  intros ns' [Hext' Hfr]. split.
  - apply (extends_trans _ _ _ Hext Hext').
  - rewrite (Hfr lane Hne). exact Hopen.
Qed.

Lemma process_note_closing (is_fx : bool) (idx : nat) (c : ascii) (ns : notes) :
  ksh_to_osu_lane four_key is_fx idx = Some lane ->
  is_empty_char c ->
  still_open ns ->
  returns ((if is_fx then process_fx_note else process_bt_note)
             four_key c idx time ns)
          (closed_since four_key ns0 closing).
Proof.
  intros Hlane Hc [[Hwf [k Hk]] Hopen].
  eapply returns_mono;
    [|apply (process_note_closes is_fx c idx lane time s ns Hwf Hlane Hc Hopen)].
  intros ns' [Hwf' Hos]. split; [split|].
  - exact Hwf'.
  - rewrite Hos, Hk, <- app_assoc. apply prefix_app_r. reflexivity.
  - unfold emitted_since. rewrite Hos, Hk, <- app_assoc, drop_app_length.
    apply elem_of_app. right. apply list_elem_of_singleton. reflexivity.
Qed.

Lemma segment_closes (is_fx : bool) (idx : nat) (c : ascii) (seg : string)
    (ns : notes) :
  ksh_to_osu_lane four_key is_fx idx = Some lane ->
  (idx < segment_width is_fx)%nat ->
  String.get idx seg = Some c ->
  is_empty_char c ->
  still_open ns ->
  returns (for_chars (segment_width is_fx)
             (fun i ch => (if is_fx then process_fx_note else process_bt_note)
                            four_key ch i time) 0 seg ns)
          (closed_since four_key ns0 closing).
Proof.
  intros Hlane Hlt Hget Hc Hopen.
  apply (for_chars_closes (segment_width is_fx) idx c _ still_open
           (closed_since four_key ns0 closing)); try assumption; try lia.
  - intros i ch ns1 Hi Hne H1. apply process_note_still_open; [|exact H1].
    intros Hi'. destruct (ksh_to_osu_lane_inj _ _ _ _ _ _ Hlane Hi' Hlt Hi).
    congruence.
  - intros ns1 H1. apply process_note_closing; assumption.
  - intros i ch ns1 H1. apply process_note_closed_since. exact H1.
  - rewrite Nat.sub_0_r. exact Hget.
Qed.

End Segment.

Lemma process_line_extends (start d : Q) (i : nat) (line : string) (ns : notes) :
  wf four_key ns ->
  returns (process_line four_key start d i line ns) (extends four_key ns).
Proof.
  intros Hwf. unfold process_line.
  assert (Hbody : forall (is_fx : bool) (time : Z) (idx : nat) (ch : ascii)
                    (ns1 : notes),
             extends four_key ns ns1 ->
             returns ((if is_fx then process_fx_note else process_bt_note)
                        four_key ch idx time ns1) (extends four_key ns)).
  { intros is_fx time idx ch ns1 H1.
    eapply returns_mono; [|apply process_note_frame; apply H1].
    intros ns2 [H2 _]. apply (extends_trans _ _ _ H1 H2). }
  apply returns_bind.
  eapply returns_mono;
    [|apply for_chars_returns with (P := extends four_key ns);
      [|apply extends_refl; exact Hwf]].
  - intros ns1 H1. apply for_chars_returns; [|exact H1].
    intros idx ch ns2 H2. apply (Hbody true _ idx ch ns2 H2).
  - intros idx ch ns1 H1. apply (Hbody false _ idx ch ns1 H1).
Qed.

(** The first line after a boundary closes the hold of a column whose
    character is empty, at the line time. *)
Lemma process_line_closes (start d : Q) (i : nat) (line : string) (ns : notes)
    (is_fx : bool) (idx lane : nat) (c : ascii) (s : Z) :
  wf four_key ns ->
  ksh_to_osu_lane four_key is_fx idx = Some lane ->
  (idx < segment_width is_fx)%nat ->
  String.get idx (segment is_fx line) = Some c ->
  is_empty_char c ->
  hold_state ns !! lane = Some (Some s) ->
  returns (process_line four_key start d i line ns)
    (closed_since four_key ns
       (Hold (lane_x_pos four_key lane) s
          (Py.int_of_float (start + inject_Z (Z.of_nat i) * d)))).
Proof.
  intros Hwf Hlane Hlt Hget Hc Hopen. unfold process_line.
  set (time := Py.int_of_float (start + inject_Z (Z.of_nat i) * d)).
  assert (H0 : extends four_key ns ns /\ hold_state ns !! lane = Some (Some s))
    by (split; [apply extends_refl; exact Hwf | exact Hopen]).
  apply returns_bind. destruct is_fx; unfold segment in Hget.
  - eapply returns_mono;
      [|apply for_chars_returns
          with (P := fun ns1 => extends four_key ns ns1
                                /\ hold_state ns1 !! lane = Some (Some s));
        [|exact H0]].
    + intros ns1 H1.
      apply (segment_closes ns lane s time true idx c (fx_part line) ns1
               Hlane Hlt Hget Hc H1).
    + intros i' ch ns1 H1.
      apply (process_note_still_open ns lane s time false i' ch ns1); [|exact H1].
      apply (fx_lane_not_bt_lane idx i' lane Hlane).
  - eapply returns_mono;
      [|apply (segment_closes ns lane s time false idx c (bt_part line) ns
                 Hlane Hlt Hget Hc H0)].
    intros ns1 H1. apply for_chars_returns; [|exact H1].
    intros i' ch ns2 H2. apply (process_note_closed_since true time ns _ i' ch ns2 H2).
Qed.

Lemma for_lines_closed_since (start d : Q) (ns0 : notes) (h : hit_object)
    (lines : list string) :
  forall (i : nat) (ns : notes),
    closed_since four_key ns0 h ns ->
    returns (for_lines (process_line four_key start d) i lines ns)
            (closed_since four_key ns0 h).
Proof.
  apply for_lines_returns. intros i line ns H.
  eapply returns_mono; [|apply process_line_extends; apply H].
  intros ns' Hext. apply (closed_since_extends _ _ _ _ H Hext).
Qed.

Lemma process_measure_closes (line : string) (rest : list string) (start bpm : Q)
    (beats : Z) (ns : notes) (is_fx : bool) (idx lane : nat) (c : ascii) (s : Z) :
  wf four_key ns ->
  Qeq_bool bpm 0 = false ->
  ksh_to_osu_lane four_key is_fx idx = Some lane ->
  (idx < segment_width is_fx)%nat ->
  String.get idx (segment is_fx line) = Some c ->
  is_empty_char c ->
  hold_state ns !! lane = Some (Some s) ->
  returns (process_measure four_key (line :: rest) start bpm beats ns)
    (fun r => closed_since four_key ns
                (Hold (lane_x_pos four_key lane) s (Py.int_of_float start)) r.1).
Proof.
  intros Hwf Hbpm Hlane Hlt Hget Hc Hopen. unfold process_measure.
  rewrite process_measure_unfold by discriminate.
  rewrite (truediv_nonzero _ _ Hbpm). monad_simpl.
  rewrite truediv_pos
    by (change 0%Q with (inject_Z 0); rewrite <- Zlt_Qlt; simpl length; lia).
  monad_simpl. apply returns_bind. cbn [for_lines]. apply returns_bind.
  eapply returns_mono;
    [|apply (process_line_closes start _ 0 line ns is_fx idx lane c s
               Hwf Hlane Hlt Hget Hc Hopen)].
  intros ns1 H1.
  rewrite (int_of_float_proper _ start) in H1
    by (simpl; rewrite Qmult_0_l, Qplus_0_r; reflexivity).
  eapply returns_mono; [|apply for_lines_closed_since; exact H1].
  intros ns2 H2. monad_simpl. exact H2.
Qed.

(** *** The column, character by character *)

Lemma lane_x_pos_inj (lane lane' : nat) :
  (lane < num_lanes four_key)%nat -> (lane' < num_lanes four_key)%nat ->
  lane_x_pos four_key lane = lane_x_pos four_key lane' -> lane = lane'.
Proof.
  intros Hl Hl' Hx.
  assert (Hall : forallb (fun l => forallb (fun l' =>
                    implb (lane_x_pos four_key l =? lane_x_pos four_key l')%Z
                          (l =? l')%nat) (seq 0 6)) (seq 0 6) = true)
    by (destruct four_key; vm_compute; reflexivity).
  assert (Hn : (num_lanes four_key <= 6)%nat)
    by (unfold num_lanes; destruct four_key; lia).
  rewrite forallb_forall in Hall.
  specialize (Hall lane). rewrite in_seq, forallb_forall in Hall.
  specialize (Hall ltac:(lia) lane'). rewrite in_seq in Hall.
  specialize (Hall ltac:(lia)).
  apply Z.eqb_eq in Hx. rewrite Hx in Hall. apply Nat.eqb_eq. exact Hall.
Qed.

(** A note rule, on a column it maps to, is [note_effect]. *)
Lemma process_note_effect (is_fx : bool) (c : ascii) (idx lane : nat) (time : Z)
    (o : option Z) (ns : notes) :
  ksh_to_osu_lane four_key is_fx idx = Some lane ->
  hold_state ns !! lane = Some o ->
  process_note four_key is_fx c idx time ns
  = Ok (Notes
          (<[lane := (note_effect is_fx c (lane_x_pos four_key lane) time o).1]>
             (hold_state ns))
          (hit_objects ns
           ++ (note_effect is_fx c (lane_x_pos four_key lane) time o).2)).
Proof.
  intros Hl Ho. destruct ns as [hs hos]. cbn [hold_state hit_objects] in *.
  unfold process_note, note_effect, tap_char, hold_char.
  destruct is_fx; unfold process_fx_note, process_bt_note; rewrite Hl; cbv zeta;
    unfold end_hold, begin_hold, hold_get, tap; cbn [hold_state hit_objects];
    rewrite Ho; monad_simpl;
    repeat match goal with
           | |- context [Ascii.eqb c ?a] => destruct (Ascii.eqb c a)
           end;
    cbn [orb fst snd]; destruct o as [s|];
    cbn [closing_event default fst snd hold_state hit_objects mbind result_bind
         Py.bind app];
    rewrite ?app_nil_r, <- ?app_assoc; try reflexivity;
    rewrite list_insert_id by exact Ho; reflexivity.
Qed.

Lemma note_effect_events (is_fx : bool) (c : ascii) (x time : Z) (o : option Z) :
  Forall (fun h => event_x h = x) (note_effect is_fx c x time o).2.
Proof.
  unfold note_effect.
  repeat match goal with
         | |- context [if ?b then _ else _] => destruct b
         end; destruct o; cbn [snd closing_event app];
    repeat constructor.
Qed.

Lemma column_events_app (lane : nat) (l l' : list hit_object) :
  column_events four_key lane (l ++ l')
  = column_events four_key lane l ++ column_events four_key lane l'.
Proof. apply List.filter_app. Qed.

Lemma column_events_elsewhere (lane lane' : nat) (l : list hit_object) :
  (lane < num_lanes four_key)%nat -> (lane' < num_lanes four_key)%nat ->
  lane' <> lane ->
  Forall (fun h => event_x h = lane_x_pos four_key lane') l ->
  column_events four_key lane l = [].
Proof.
  intros Hl Hl' Hne. induction 1 as [|h l Hh _ IH]; [reflexivity|].
  unfold column_events in *. cbn [List.filter]. rewrite Hh, IH.
  destruct (Z.eqb_spec (lane_x_pos four_key lane') (lane_x_pos four_key lane))
    as [E|_]; [|reflexivity].
  apply lane_x_pos_inj in E; [contradiction | assumption | assumption].
Qed.

(** A note rule for a position that is not read onto column [lane] leaves
    the column alone: its entry of the hold table stays, and no event is
    emitted on it. *)
Lemma process_note_elsewhere (is_fx : bool) (c : ascii) (idx lane : nat)
    (time : Z) (ns : notes) :
  wf four_key ns -> (lane < num_lanes four_key)%nat ->
  ksh_to_osu_lane four_key is_fx idx <> Some lane ->
  returns (process_note four_key is_fx c idx time ns)
    (fun ns' => wf four_key ns'
                /\ hold_state ns' !! lane = hold_state ns !! lane
                /\ exists new, hit_objects ns' = hit_objects ns ++ new
                               /\ column_events four_key lane new = []).
Proof.
  intros Hwf Hlt Hne.
  destruct (ksh_to_osu_lane four_key is_fx idx) as [lane'|] eqn:E.
  - pose proof (ksh_to_osu_lane_lt _ _ _ _ E) as Hlt'.
    destruct (hold_get_wf four_key ns lane' Hwf Hlt') as (o & _ & Ho).
    rewrite (process_note_effect is_fx c idx lane' time o ns E Ho).
    cbn [returns hold_state hit_objects]. split; [|split].
    + unfold wf. cbn [hold_state]. rewrite length_insert. exact Hwf.
    + apply list_lookup_insert_ne. congruence.
    + eexists. split; [reflexivity|].
      apply (column_events_elsewhere lane lane'); try assumption; [congruence|].
      apply note_effect_events.
  - assert (Hskip : process_note four_key is_fx c idx time ns = Ok ns)
      by (unfold process_note; destruct is_fx;
          unfold process_fx_note, process_bt_note; rewrite E; reflexivity).
    rewrite Hskip. cbn [returns]. split; [exact Hwf|]. split; [reflexivity|].
    exists []. split; [rewrite app_nil_r; reflexivity | reflexivity].
Qed.

Section Column.

Variables (ns0 : notes) (lane : nat) (s : Z).
Hypothesis lane_lt : (lane < num_lanes four_key)%nat.

Lemma note_keeps_open (is_fx : bool) (c : ascii) (idx : nat) (time : Z)
    (ns : notes) :
  ksh_to_osu_lane four_key is_fx idx <> Some lane ->
  open_through four_key lane s ns0 ns ->
  returns (process_note four_key is_fx c idx time ns)
          (open_through four_key lane s ns0).
Proof.
  intros Hne (Hwf & Hopen & new & Hnew & Hcol).
  eapply returns_mono;
    [|apply (process_note_elsewhere is_fx c idx lane time ns Hwf lane_lt Hne)].
  intros ns' (Hwf' & Hsame & new' & Hnew' & Hcol'). split; [exact Hwf'|].
  split; [rewrite Hsame; exact Hopen|].
  exists (new ++ new'). split.
  - rewrite Hnew', Hnew, app_assoc. reflexivity.
  - rewrite column_events_app, Hcol, Hcol'. reflexivity.
Qed.

Lemma note_keeps_closed (is_fx : bool) (c : ascii) (idx : nat) (time time' : Z)
    (ns : notes) :
  ksh_to_osu_lane four_key is_fx idx <> Some lane ->
  closed_by four_key lane s time' ns0 ns ->
  returns (process_note four_key is_fx c idx time ns)
          (closed_by four_key lane s time' ns0).
Proof.
  intros Hne (Hwf & Hclosed & new & Hnew & Hcol).
  eapply returns_mono;
    [|apply (process_note_elsewhere is_fx c idx lane time ns Hwf lane_lt Hne)].
  intros ns' (Hwf' & Hsame & new' & Hnew' & Hcol'). split; [exact Hwf'|].
  split; [rewrite Hsame; exact Hclosed|].
  exists (new ++ new'). split.
  - rewrite Hnew', Hnew, app_assoc. reflexivity.
  - rewrite column_events_app, Hcol, Hcol'. reflexivity.
Qed.

(** An "empty" character on the column closes its hold: the entry is
    cleared and the hold event is the one event of the column. *)
Lemma note_closes (is_fx : bool) (c : ascii) (idx : nat) (time : Z) (ns : notes) :
  ksh_to_osu_lane four_key is_fx idx = Some lane ->
  is_empty_char c ->
  open_through four_key lane s ns0 ns ->
  returns (process_note four_key is_fx c idx time ns)
          (closed_by four_key lane s time ns0).
Proof.
  intros Hlane Hc (Hwf & Hopen & new & Hnew & Hcol).
  rewrite (process_note_effect is_fx c idx lane time (Some s) ns Hlane Hopen).
  assert (E : note_effect is_fx c (lane_x_pos four_key lane) time (Some s)
              = (None, [Hold (lane_x_pos four_key lane) s time]))
    by (unfold note_effect, tap_char, hold_char;
        destruct Hc as [-> | ->], is_fx; reflexivity).
  rewrite E. cbn [returns fst snd]. split; [|split].
  - unfold wf. cbn [hold_state]. rewrite length_insert. exact Hwf.
  - cbn [hold_state]. apply list_lookup_insert_eq.
    apply lookup_lt_is_Some. rewrite Hopen. eauto.
  - cbn [hit_objects]. exists (new ++ [Hold (lane_x_pos four_key lane) s time]).
    split; [rewrite Hnew, app_assoc; reflexivity|].
    rewrite column_events_app, Hcol. unfold column_events.
    cbn [List.filter event_x app]. rewrite Z.eqb_refl. reflexivity.
Qed.

End Column.

(** The loop over a segment from position [k0] on, when the rule keeps [P]
    at the positions the loop reads. *)
Lemma for_chars_from (P : notes -> Prop) (limit k0 : nat)
    (body : nat -> ascii -> notes -> result notes) :
  (forall i ch ns, (k0 <= i)%nat -> (i < limit)%nat -> P ns ->
                   returns (body i ch ns) P) ->
  forall s k ns, (k0 <= k)%nat -> P ns -> returns (for_chars limit body k s ns) P.
Proof.
  intros Hbody. induction s as [|c s IH]; intros k ns Hk HP; cbn [for_chars];
    [exact HP|].
  destruct (Nat.leb_spec limit k); [exact HP|].
  apply returns_bind. eapply returns_mono; [|apply Hbody; [exact Hk | lia | exact HP]].
  intros ns' HP'. apply IH; [lia | exact HP'].
Qed.

(** The loop over a segment, when position [idx] takes [I1] to [P3] and
    the other positions the loop reads keep both. *)
Lemma for_chars_closes_within (limit idx : nat) (c : ascii)
    (body : nat -> ascii -> notes -> result notes) (I1 P3 : notes -> Prop) :
  (forall i ch ns, (i < limit)%nat -> i <> idx -> I1 ns -> returns (body i ch ns) I1) ->
  (forall ns, I1 ns -> returns (body idx c ns) P3) ->
  (forall i ch ns, (i < limit)%nat -> i <> idx -> P3 ns -> returns (body i ch ns) P3) ->
  (idx < limit)%nat ->
  forall (s : string) (k : nat) (ns : notes),
    (k <= idx)%nat -> String.get (idx - k) s = Some c -> I1 ns ->
    returns (for_chars limit body k s ns) P3.
Proof.
  intros Hother Hclose Hafter Hlt.
  induction s as [|d s IH]; intros k ns Hk Hget HI; [discriminate|].
  cbn [for_chars].
  assert (E : (limit <=? k)%nat = false) by (apply Nat.leb_gt; lia).
  rewrite E. apply returns_bind.
  destruct (idx - k)%nat as [|j] eqn:Ej; cbn [String.get] in Hget.
  - injection Hget as ->. assert (k = idx) as -> by lia.
    eapply returns_mono; [|apply Hclose; exact HI].
    intros ns' HP. apply (for_chars_from P3 limit (S idx)); [|lia|exact HP].
    intros i ch ns1 Hi Hi' H1. apply Hafter; [exact Hi' | lia | exact H1].
  - eapply returns_mono; [|apply (Hother k d ns); [lia | lia | exact HI]].
    intros ns' HI'. apply IH; [lia | | exact HI'].
    replace (idx - S k)%nat with j by lia. exact Hget.
Qed.

(** A line whose character for column [lane] is empty closes the open hold
    of the column at the line time: after the line the column's entry is
    [None], and the line emitted exactly one event on the column. *)
Lemma process_line_closes_column (start d : Q) (i : nat) (line : string)
    (ns : notes) (is_fx : bool) (idx lane : nat) (c : ascii) (s : Z) :
  wf four_key ns ->
  ksh_to_osu_lane four_key is_fx idx = Some lane ->
  (idx < segment_width is_fx)%nat ->
  String.get idx (segment is_fx line) = Some c ->
  is_empty_char c ->
  hold_state ns !! lane = Some (Some s) ->
  returns (process_line four_key start d i line ns)
    (closed_by four_key lane s
       (Py.int_of_float (start + inject_Z (Z.of_nat i) * d)) ns).
Proof.
  intros Hwf Hlane Hlt Hget Hc Hopen. unfold process_line.
  set (time := Py.int_of_float (start + inject_Z (Z.of_nat i) * d)).
  pose proof (ksh_to_osu_lane_lt _ _ _ _ Hlane) as Hlane_lt.
  assert (H0 : open_through four_key lane s ns ns).
  { split; [exact Hwf|]. split; [exact Hopen|].
    exists []. split; [rewrite app_nil_r; reflexivity | reflexivity]. }
  assert (Hseg : forall ns1, open_through four_key lane s ns ns1 ->
            returns (for_chars (segment_width is_fx)
                       (fun k ch => process_note four_key is_fx ch k time)
                       0 (segment is_fx line) ns1)
                    (closed_by four_key lane s time ns)).
  { intros ns1 H1.
    apply (for_chars_closes_within (segment_width is_fx) idx c _
             (open_through four_key lane s ns)
             (closed_by four_key lane s time ns)); try assumption; try lia.
    - intros k ch ns2 Hk Hne H2. apply note_keeps_open; [assumption| |exact H2].
      intros Hk'. destruct (ksh_to_osu_lane_inj _ _ _ _ _ _ Hlane Hk' Hlt Hk).
      congruence.
    - intros ns2 H2. apply note_closes; assumption.
    - intros k ch ns2 Hk Hne H2. apply note_keeps_closed; [assumption| |exact H2].
      intros Hk'. destruct (ksh_to_osu_lane_inj _ _ _ _ _ _ Hlane Hk' Hlt Hk).
      congruence.
    - rewrite Nat.sub_0_r. exact Hget. }
  apply returns_bind. destruct is_fx.
  - eapply returns_mono;
      [|apply (for_chars_from (open_through four_key lane s ns) 4 0);
        [|lia|exact H0]].
    + intros ns1 H1. apply (Hseg ns1 H1).
    + intros k ch ns1 _ Hk H1.
      apply (note_keeps_open ns lane s Hlane_lt false ch k time ns1); [|exact H1].
      apply (fx_lane_not_bt_lane idx k lane Hlane).
  - eapply returns_mono; [|apply (Hseg ns H0)].
    intros ns1 H1.
    apply (for_chars_from (closed_by four_key lane s time ns) 2 0); [|lia|exact H1].
    intros k ch ns2 _ Hk H2.
    apply (note_keeps_closed ns lane s Hlane_lt true ch k time time ns2); [|exact H2].
    intros Hk'.
    destruct (ksh_to_osu_lane_inj _ _ _ _ _ _ Hlane Hk' Hlt Hk). discriminate.
Qed.

End Boundary.

(** The measure after a boundary emits the hold event of a column whose
    character on the first note-data line is empty. *)
Lemma run_measure_closes (four_key : bool) (lines : list string)
    (st st' : timeline) (m : measure) (line : string) (rest : list string)
    (is_fx : bool) (idx lane : nat) (c : ascii) (s : Z) :
  wf four_key (tl_notes st) ->
  hold_state (tl_notes st) !! lane = Some (Some s) ->
  collect_lines lines st (enter_measure st) = Ok (st', m) ->
  List.filter (Py.contains "|") (measure_lines m) = line :: rest ->
  Qeq_bool (current_bpm st') 0 = false ->
  ksh_to_osu_lane four_key is_fx idx = Some lane ->
  (idx < segment_width is_fx)%nat ->
  String.get idx (segment is_fx line) = Some c ->
  is_empty_char c ->
  returns (run_measure four_key lines st)
    (fun st'' =>
       emitted_since (tl_notes st)
         (Hold (lane_x_pos four_key lane) s (Py.int_of_float (current_time st)))
         (tl_notes st'')).
Proof.
  intros Hwf Hopen Hcollect Hfilter Hbpm Hlane Hlt Hget Hc.
  unfold run_measure. rewrite Hcollect. monad_simpl.
  apply collect_lines_frame in Hcollect as (Hns & _ & Hstart).
  cbn [enter_measure measure_start_time] in Hstart.
  unfold finish_measure.
  destruct (measure_lines m) as [|l0 ls0]; [discriminate|].
  rewrite Hfilter, Hns, Hstart. apply returns_bind.
  eapply returns_mono;
    [|apply (process_measure_closes four_key line rest _ _ _ _ is_fx idx lane c s
               Hwf Hbpm Hlane Hlt Hget Hc Hopen)].
  intros [ns t] [_ Hem]. monad_simpl. exact Hem.
Qed.

(** C1, as the code has it.  Let [st] be the state at a measure boundary,
    with an open hold on column [lane], started at [s], and let the next
    measure have [line] as its first note-data line, [rest] being its other
    note-data lines.  If the character of [line] that corresponds to the
    column (position [idx] of the button segment, or of the effect segment)
    denotes "empty", the hold is closed when [line] is processed, and by
    that line alone: processing [line] at the measure's start returns notes
    [ns1] in which the column's entry of the hold table is cleared and in
    which, on the column, exactly one event has been added, the hold from
    [s] to the truncated boundary time; the measure is the run of [rest],
    from line index 1, on these notes.  So the measure emits the hold event
    with that end time. *)
Theorem hold_closes_at_boundary (four_key : bool) (lines : list string)
    (st st' : timeline) (m : measure) (line : string) (rest : list string)
    (is_fx : bool) (idx lane : nat) (c : ascii) (s : Z) :
  wf four_key (tl_notes st) ->
  hold_state (tl_notes st) !! lane = Some (Some s) ->
  collect_lines lines st (enter_measure st) = Ok (st', m) ->
  List.filter (Py.contains "|") (measure_lines m) = line :: rest ->
  Qeq_bool (current_bpm st') 0 = false ->
  ksh_to_osu_lane four_key is_fx idx = Some lane ->
  (idx < segment_width is_fx)%nat ->
  String.get idx (segment is_fx line) = Some c ->
  is_empty_char c ->
  exists ns1 : notes,
    process_line four_key (current_time st)
      (line_duration_of st' (length (line :: rest))) 0 line (tl_notes st)
    = Ok ns1
    /\ closed_by four_key lane s (Py.int_of_float (current_time st))
         (tl_notes st) ns1
    /\ run_measure four_key lines st
       = (ns2 ← for_lines
                  (process_line four_key (current_time st)
                     (line_duration_of st' (length (line :: rest))))
                  1 rest ns1;
          Ok (measure_end st' (current_time st) ns2))
    /\ returns (run_measure four_key lines st)
         (fun st'' =>
            emitted_since (tl_notes st)
              (Hold (lane_x_pos four_key lane) s
                 (Py.int_of_float (current_time st)))
              (tl_notes st'')).
Proof.
  intros Hwf Hopen Hcollect Hfilter Hbpm Hlane Hlt Hget Hc.
  pose proof (run_measure_closes four_key lines st st' m line rest is_fx idx lane
                c s Hwf Hopen Hcollect Hfilter Hbpm Hlane Hlt Hget Hc) as Hemit.
  pose proof (process_line_closes_column four_key (current_time st)
                (line_duration_of st' (length (line :: rest))) 0 line (tl_notes st)
                is_fx idx lane c s Hwf Hlane Hlt Hget Hc Hopen) as Hline.
  destruct (process_line four_key (current_time st) _ 0 line (tl_notes st))
    as [ns1|e] eqn:E; [|contradiction].
  cbn [returns] in Hline.
  rewrite (int_of_float_proper _ (current_time st)) in Hline
    by (simpl; rewrite Qmult_0_l, Qplus_0_r; reflexivity).
  exists ns1. split; [reflexivity|]. split; [exact Hline|]. split; [|exact Hemit].
  unfold run_measure. rewrite Hcollect. monad_simpl.
  apply collect_lines_frame in Hcollect as (Hns & _ & Hstart).
  cbn [enter_measure measure_start_time] in Hstart.
  unfold finish_measure.
  destruct (measure_lines m) as [|l0 ls0]; [discriminate|].
  rewrite Hfilter, Hns, Hstart. unfold process_measure.
  rewrite process_measure_unfold by discriminate.
  rewrite (truediv_nonzero _ _ Hbpm). monad_simpl.
  rewrite truediv_pos
    by (change 0%Q with (inject_Z 0); rewrite <- Zlt_Qlt; simpl length; lia).
  monad_simpl. cbn [for_lines]. monad_simpl.
  unfold line_duration_of in E. rewrite E. monad_simpl.
  unfold line_duration_of.
  destruct (for_lines _ 1 rest ns1) as [ns2|e]; reflexivity.
Qed.

Lemma hold_closes_at_boundary_witness :
  exists st0 st1 st1' m,
    initial_timeline false 0 ∅ = Ok st0
    /\ run_measure false ["2000|00"] st0 = Ok st1
    /\ collect_lines ["t=180"; "0000|00"; "0000|00"] st1 (enter_measure st1)
       = Ok (st1', m)
    /\ exists ns1 : notes,
         process_line false (current_time st1)
           (line_duration_of st1' (length ["0000|00"; "0000|00"])) 0 "0000|00"
           (tl_notes st1)
         = Ok ns1
         /\ closed_by false 1 0 (Py.int_of_float (current_time st1))
              (tl_notes st1) ns1
         /\ run_measure false ["t=180"; "0000|00"; "0000|00"] st1
            = (ns2 ← for_lines
                       (process_line false (current_time st1)
                          (line_duration_of st1'
                             (length ["0000|00"; "0000|00"])))
                       1 ["0000|00"] ns1;
               Ok (measure_end st1' (current_time st1) ns2))
         /\ returns (run_measure false ["t=180"; "0000|00"; "0000|00"] st1)
              (fun st2 =>
                 emitted_since (tl_notes st1)
                   (Hold (lane_x_pos false 1) 0
                      (Py.int_of_float (current_time st1)))
                   (tl_notes st2)).
Proof.
  eexists _, _, _, _.
  split; [vm_compute; reflexivity|]. split; [vm_compute; reflexivity|].
  split; [vm_compute; reflexivity|].
  eapply (hold_closes_at_boundary false ["t=180"; "0000|00"; "0000|00"] _ _ _
            "0000|00" ["0000|00"] false 0 1 "0" 0).
  - vm_compute. reflexivity.
  - vm_compute. reflexivity.
  - vm_compute. reflexivity.
  - vm_compute. reflexivity.
  - vm_compute. reflexivity.
  - vm_compute. reflexivity.
  - vm_compute. lia.
  - vm_compute. reflexivity.
  - left. reflexivity.
Defined.

(** The scenario of C1: the hold opened by [2000] ends at 2000, the
    boundary, when the next measure starts with [0000]. *)
Lemma hold_closes_at_boundary_scenario :
  returns (timeline_of false 0 ["--"; "2000|00"; "--"; "0000|00"; "0000|00"; "--"])
    (fun st => hit_objects (tl_notes st) = [Hold 128 0 2000]).
Proof. vm_compute. reflexivity. Qed.

(** C1 as stated fails: the resolver is not run at the boundary.  After the
    measure [0200] the hold of column 2 is still open and nothing has been
    emitted, although the next measure starts with [1000]; run on that
    state, the resolver would have closed the hold there and then.  The
    hold is closed by the first line of the next measure, after the tap of
    that line on column 1. *)
Lemma resolver_is_not_run_at_boundary :
  exists st0 st1,
    initial_timeline false 0 ∅ = Ok st0
    /\ run_measure false ["0200|00"] st0 = Ok st1
    /\ hit_objects (tl_notes st1) = []
    /\ hold_state (tl_notes st1) !! 2%nat = Some (Some 0)
    /\ returns (check_cross_measure_holds false (tl_notes st1) ["1000|00"]
                  (Py.int_of_float (current_time st1)))
         (fun ns => hit_objects ns = [Hold 213 0 2000]
                    /\ hold_state ns !! 2%nat = Some None)
    /\ returns (build_timeline false 0 ["--"; "0200|00"; "--"; "1000|00"] 1 ∅)
         (fun st => hit_objects (tl_notes st) = [Tap 128 2000; Hold 213 0 2000]).
Proof.
  eexists _, _. split; [vm_compute; reflexivity|]. split; [vm_compute; reflexivity|].
  vm_compute. auto.
Qed.

(** * Further properties of the converter *)

(** ** Lane mapper *)

(** X1.  Every column the lane mapper returns is a column of the mode:
    below 4 in 4K, below 6 in 6K, whatever the source index. *)
Theorem mapped_lane_is_a_column (four_key is_fx : bool) (idx lane : nat) :
  ksh_to_osu_lane four_key is_fx idx = Some lane ->
  (lane < num_lanes four_key)%nat.
Proof.
  unfold ksh_to_osu_lane, num_lanes.
  destruct four_key, is_fx; intros [= <-]; try destruct (idx =? 0)%nat; lia.
Qed.

Lemma mapped_lane_is_a_column_witness :
  ksh_to_osu_lane false false 7 = Some 4%nat /\ (4 < num_lanes false)%nat.
Proof.
  split; [reflexivity|].
  apply (mapped_lane_is_a_column false false 7 4). reflexivity.
Defined.

(** X2.  The positions that are read of a line (0-3 of the button segment,
    0-1 of the effect segment) go to pairwise distinct columns: two
    positions with the same column are the same position of the same
    segment. *)
Theorem read_positions_have_distinct_columns (four_key is_fx is_fx' : bool)
    (idx idx' lane : nat) :
  (idx < segment_width is_fx)%nat -> (idx' < segment_width is_fx')%nat ->
  ksh_to_osu_lane four_key is_fx idx = Some lane ->
  ksh_to_osu_lane four_key is_fx' idx' = Some lane ->
  is_fx = is_fx' /\ idx = idx'.
Proof.
  intros Hi Hi' H H'. unfold ksh_to_osu_lane, segment_width in *.
  destruct four_key, is_fx, is_fx'; try discriminate;
    injection H as <-; injection H' as H';
    repeat match goal with
           | H : context [(?i =? 0)%nat] |- _ => destruct (Nat.eqb_spec i 0)
           end; split; try reflexivity; lia.
Qed.

Lemma read_positions_have_distinct_columns_witness :
  true = true /\ 1%nat = 1%nat.
Proof.
  apply (read_positions_have_distinct_columns false true true 1 1 5);
    [vm_compute; lia | vm_compute; lia | reflexivity | reflexivity].
Defined.

(** X3.  The x coordinate of a column lies in the 512-unit playfield, and
    osu!mania's formula [floor(x * columnCount / 512)] reads the column
    back from it, in both modes. *)
Theorem lane_x_pos_reads_back (four_key : bool) (lane : nat) :
  (lane < num_lanes four_key)%nat ->
  0 <= lane_x_pos four_key lane < 512
  /\ osu_column four_key (lane_x_pos four_key lane) = Z.of_nat lane.
Proof.
  unfold num_lanes. intros H.
  destruct four_key;
    repeat (destruct lane as [|lane]; [vm_compute; repeat split; congruence|]);
    lia.
Qed.

Lemma lane_x_pos_reads_back_witness :
  0 <= lane_x_pos false 3 < 512
  /\ osu_column false (lane_x_pos false 3) = 3.
Proof. apply (lane_x_pos_reads_back false 3). vm_compute. lia. Defined.

(** X4.  In 4K mode the effect segment of a line is never read: two lines
    with the same button segment are processed alike, so no character of
    the effect segment emits an event or touches the hold table. *)
Theorem four_key_ignores_effect_segment (start d : Q) (i : nat)
    (line line' : string) (ns : notes) :
  bt_part line = bt_part line' ->
  process_line true start d i line ns = process_line true start d i line' ns.
Proof.
  intros Hbt. unfold process_line. rewrite Hbt.
  assert (Hfx : forall (time : Z) (seg : string) (k : nat) (ns1 : notes),
             for_chars 2 (fun fx_idx char => process_fx_note true char fx_idx time)
               k seg ns1 = Ok ns1).
  { intros time. induction seg as [|c seg IH]; intros k ns1; [reflexivity|].
    cbn [for_chars]. destruct (2 <=? k)%nat; [reflexivity|].
    change (process_fx_note true c k time ns1) with (Ok ns1). monad_simpl.
    apply IH. }
  destruct (for_chars 4 _ 0 (bt_part line') ns) as [ns1|]; monad_simpl;
    [|reflexivity].
  rewrite !Hfx. reflexivity.
Qed.

Lemma four_key_ignores_effect_segment_witness :
  process_line true 0 500 1 "1200|12" (Notes (replicate 4 None) [])
  = process_line true 0 500 1 "1200|00" (Notes (replicate 4 None) []).
Proof.
  apply (four_key_ignores_effect_segment 0 500 1 "1200|12" "1200|00").
  reflexivity.
Defined.

(** ** Metadata Extractor *)

Lemma header_lines_app (header body : list string) (d : string) :
  existsb is_delimiter header = false -> is_delimiter d = true ->
  MetadataSpec.header_lines (header ++ d :: body) = Py.strip <$> header.
Proof.
  intros Hh Hd. induction header as [|raw header IH]; simpl.
  - unfold is_delimiter in Hd. rewrite Hd. reflexivity.
  - simpl in Hh. apply orb_false_elim in Hh as [H1 H2].
    unfold is_delimiter in H1. rewrite H1, (IH H2). reflexivity.
Qed.

Lemma header_lines_no_delimiter (lines : list string) :
  existsb is_delimiter lines = false ->
  MetadataSpec.header_lines lines = Py.strip <$> lines.
Proof.
  induction lines as [|raw lines IH]; simpl; [reflexivity|].
  intros [H1 H2]%orb_false_elim. unfold is_delimiter in H1.
  rewrite H1, (IH H2). reflexivity.
Qed.

(** X5.  The chart body starts right after the first delimiter: for header
    lines without a delimiter followed by a delimiter line, the returned
    index is one past the delimiter, so the lines from that index on are
    exactly the lines after it, and only the header lines reach the
    mapping. *)
Theorem chart_starts_after_first_delimiter (header body : list string)
    (d : string) :
  existsb is_delimiter header = false -> is_delimiter d = true ->
  (parse_ksh_metadata (header ++ d :: body)).1
  = (parse_ksh_metadata header).1
  /\ (parse_ksh_metadata (header ++ d :: body)).2 = S (length header)
  /\ drop (parse_ksh_metadata (header ++ d :: body)).2 (header ++ d :: body)
     = body.
Proof.
  intros Hh Hd. unfold parse_ksh_metadata.
  rewrite !metadata_loop_spec, !metadata_loop_index.
  rewrite (header_lines_app _ _ _ Hh Hd), (header_lines_no_delimiter _ Hh).
  rewrite length_fmap, length_app. cbn [length].
  assert (E : (length header <? length header + S (length body))%nat = true)
    by (apply Nat.ltb_lt; lia).
  rewrite E. cbn [Nat.add]. split; [reflexivity|]. split; [reflexivity|].
  rewrite (cons_middle d header body), app_assoc.
  apply drop_app_length'. rewrite length_app. simpl. lia.
Qed.

Lemma chart_starts_after_first_delimiter_witness :
  (parse_ksh_metadata (["title=a"; "t=150"] ++ " -- " :: ["1000|00"; "--"])).2
  = 3%nat.
Proof.
  apply (chart_starts_after_first_delimiter ["title=a"; "t=150"]
           ["1000|00"; "--"] " -- "); reflexivity.
Defined.

Lemma find_app_first {A} (p : A -> bool) (l1 l2 : list A) :
  List.find p (l1 ++ l2)
  = match List.find p l1 with Some x => Some x | None => List.find p l2 end.
Proof.
  induction l1 as [|a l1 IH]; simpl; [reflexivity|].
  destruct (p a); [reflexivity | exact IH].
Qed.

Lemma foldl_insert_line_lookup (k : string) (ls : list string) :
  forall meta : gmap string string,
    foldl MetadataSpec.insert_line meta ls !! k
    = match List.find (fun l => inserts l && String.eqb (MetadataSpec.key_of l) k)
                      (rev ls) with
      | Some l => Some (MetadataSpec.value_of l)
      | None => meta !! k
      end.
Proof.
  induction ls as [|l ls IH]; intros meta; simpl; [reflexivity|].
  rewrite IH, find_app_first.
  destruct (List.find _ (rev ls)); [reflexivity|]. simpl.
  unfold MetadataSpec.insert_line. fold (inserts l).
  destruct (inserts l); simpl; [|reflexivity].
  destruct (String.eqb_spec (MetadataSpec.key_of l) k) as [->|Hne].
  - apply lookup_insert_eq.
  - apply lookup_insert_ne. exact Hne.
Qed.

(** X6.  Looking a key up in the extracted metadata gives the value of the
    last header line that has this key, and nothing when no header line
    has it: a later line overwrites an earlier one, and comment lines and
    lines without [=] never answer. *)
Theorem metadata_lookup_is_last_line (lines : list string) (k : string) :
  (parse_ksh_metadata lines).1 !! k
  = MetadataSpec.value_of
    <$> List.find (fun l => inserts l && String.eqb (MetadataSpec.key_of l) k)
          (rev (MetadataSpec.header_lines lines)).
Proof.
  unfold parse_ksh_metadata. rewrite metadata_loop_spec, foldl_insert_line_lookup.
  destruct (List.find _ _); [reflexivity|]. apply lookup_empty.
Qed.

(** ** Charts without a body *)

Lemma open_holds_none (n : nat) : open_holds (replicate n None) = [].
Proof.
  unfold open_holds, items. rewrite length_replicate.
  generalize 0%nat. induction n as [|n IH]; intros k; [reflexivity|].
  simpl. apply IH.
Qed.

(** X7.  A file without any delimiter line has no chart body: every line
    is taken as header, and a conversion that completes gives just the
    initial tempo marker at the start time, without a single hit object,
    whatever note lines the file holds. *)
Theorem chart_without_delimiter_is_empty (four_key : bool)
    (custom_offset_ms : Z) (lines : list string) (st : timeline) :
  existsb is_delimiter lines = false ->
  timeline_of four_key custom_offset_ms lines = Ok st ->
  hit_objects (tl_notes st) = []
  /\ exists bpm,
       header_bpm (parse_ksh_metadata lines).1 = Ok bpm
       /\ timing_points st
          = [TimingPoint (start_time_of custom_offset_ms (parse_ksh_metadata lines).1)
               (60000 / bpm)%Q 4].
Proof.
  intros Hd. unfold timeline_of.
  pose proof (metadata_loop_index lines 0 ∅) as Hi. cbv zeta in Hi.
  rewrite (header_lines_no_delimiter _ Hd), length_fmap, Nat.ltb_irrefl in Hi.
  fold (parse_ksh_metadata lines) in Hi.
  destruct (parse_ksh_metadata lines) as [meta chart_start].
  cbn [fst snd] in *. subst chart_start. cbn [Nat.add].
  unfold build_timeline, initial_timeline.
  destruct (header_bpm meta) as [bpm|e]; monad_simpl; [|discriminate].
  unfold Py.truediv. destruct (Qeq_bool bpm 0); monad_simpl; [discriminate|].
  rewrite drop_all. cbn [measures_loop finish_measure enter_measure measure_lines].
  monad_simpl. cbn [tl_notes timing_points current_time hit_objects].
  intros [= <-]. cbn [tl_notes timing_points].
  rewrite close_remaining_holds_spec. cbn [hit_objects hold_state].
  rewrite open_holds_none. eauto.
Qed.

Lemma chart_without_delimiter_is_empty_witness :
  exists st,
    timeline_of false 0 ["t=150"; "1000|00"; "2000|00"; "0000|00"] = Ok st
    /\ hit_objects (tl_notes st) = []
    /\ exists bpm,
         header_bpm (parse_ksh_metadata ["t=150"; "1000|00"; "2000|00"; "0000|00"]).1
         = Ok bpm
         /\ timing_points st
            = [TimingPoint
                 (start_time_of 0
                    (parse_ksh_metadata ["t=150"; "1000|00"; "2000|00"; "0000|00"]).1)
                 (60000 / bpm)%Q 4].
Proof.
  eexists. split; [vm_compute; reflexivity|].
  apply (chart_without_delimiter_is_empty false 0
           ["t=150"; "1000|00"; "2000|00"; "0000|00"]);
    vm_compute; reflexivity.
Defined.

(** ** Time signatures and offsets *)

Lemma split_app_sep (c : ascii) (b r : string) :
  Py.contains c b = false ->
  Py.split c (b ++ String c r)%string = b :: Py.split c r.
Proof.
  induction b as [|a b IH].
  - intros _. change ("" ++ String c r)%string with (String c r).
    cbn [Py.split]. rewrite Ascii.eqb_refl. reflexivity.
  - change (String a b ++ String c r)%string
      with (String a (b ++ String c r))%string.
    cbn [Py.contains Py.split].
    rewrite (Ascii.eqb_sym c a). destruct (Ascii.eqb a c); [discriminate|].
    intros H. rewrite (IH H). reflexivity.
Qed.

Lemma contains_app_sep (c : ascii) (b r : string) :
  Py.contains c (b ++ String c r)%string = true.
Proof.
  induction b as [|a b IH].
  - change ("" ++ String c r)%string with (String c r).
    cbn [Py.contains]. rewrite Ascii.eqb_refl. reflexivity.
  - change (String a b ++ String c r)%string
      with (String a (b ++ String c r))%string.
    cbn [Py.contains]. destruct (Ascii.eqb c a); auto.
Qed.

(** X8.  Only the numerator of a time signature is read: [beat=n/d] has
    the effect of [beat=n] for every text [d] after the first slash, also
    one that is no number. *)
Theorem beat_denominator_is_ignored (n d : string) (st : timeline) :
  Py.contains "/" n = false ->
  beat_line ("beat=" ++ n ++ String "/" d) st = beat_line ("beat=" ++ n) st.
Proof.
  intros Hn. unfold beat_line.
  change (Py.drop 5 ("beat=" ++ n ++ String "/" d)) with (n ++ String "/" d)%string.
  change (Py.drop 5 ("beat=" ++ n)) with n.
  rewrite contains_app_sep, (split_app_sep _ _ _ Hn), Hn. reflexivity.
Qed.

Lemma beat_denominator_is_ignored_witness :
  exists st0,
    initial_timeline false 0 ∅ = Ok st0
    /\ beat_line "beat=3/x" st0 = beat_line "beat=3" st0
    /\ returns (beat_line "beat=3/x" st0) (fun st => beats_per_measure st = 3).
Proof.
  eexists. split; [vm_compute; reflexivity|]. split.
  - apply (beat_denominator_is_ignored "3" "x"). reflexivity.
  - vm_compute. reflexivity.
Defined.





(** ** How the conversion can fail *)

Section Outcome.

Variable four_key : bool.

Lemma process_measure_outcome (note_lines : list string) (start bpm : Q)
    (beats : Z) (ns : notes) :
  wf four_key ns ->
  match process_measure four_key note_lines start bpm beats ns with
  | Ok r => wf four_key r.1
  | Raise e => e = ZeroDivisionError /\ is_zero bpm = true
  end.
Proof.
  intros Hwf. unfold process_measure.
  destruct note_lines as [|l ls]; [exact Hwf|].
  rewrite process_measure_unfold by discriminate.
  destruct (is_zero bpm) eqn:Hz.
  { unfold Py.truediv. unfold is_zero in Hz. rewrite Hz. monad_simpl. auto. }
  rewrite (truediv_nonzero _ _ Hz). monad_simpl.
  rewrite truediv_pos
    by (change 0%Q with (inject_Z 0); rewrite <- Zlt_Qlt; simpl length; lia).
  monad_simpl.
  pose proof (for_lines_returns (wf four_key)
                (process_line four_key start
                   (60000 / bpm * inject_Z beats
                    / inject_Z (Z.of_nat (length (l :: ls)))))
                (fun idx line ns1 H => process_line_wf four_key _ _ idx line ns1 H)
                (l :: ls) 0 ns Hwf) as H.
  destruct (for_lines _ 0 (l :: ls) ns) as [ns1|]; [|destruct H].
  monad_simpl. exact H.
Qed.

Lemma finish_measure_outcome (st : timeline) (m : measure) :
  wf four_key (tl_notes st) -> is_zero (current_bpm st) = false ->
  returns (finish_measure four_key st m)
    (fun st' => wf four_key (tl_notes st')
                /\ current_bpm st' = current_bpm st).
Proof.
  intros Hwf Hz. unfold finish_measure.
  destruct (measure_lines m) as [|l0 ls0]; [split; [exact Hwf | reflexivity]|].
  destruct (List.filter (Py.contains "|") (l0 :: ls0)) as [|l ls].
  - rewrite (truediv_nonzero _ _ Hz). monad_simpl. auto.
  - pose proof (process_measure_outcome (l :: ls) (measure_start_time m)
                  (current_bpm st) (beats_per_measure st) (tl_notes st) Hwf) as H.
    destruct (process_measure four_key (l :: ls) _ _ _ _) as [[ns t]|].
    + monad_simpl. auto.
    + destruct H as [_ H]. congruence.
Qed.

Lemma collect_line_outcome (raw : string) (st : timeline) (m : measure) :
  match collect_line (Py.strip raw) st m with
  | Ok r => tl_notes r.1 = tl_notes st
            /\ match tempo_change (current_bpm st) raw with
               | Some new_bpm => current_bpm r.1 = new_bpm /\ is_zero new_bpm = false
               | None => current_bpm r.1 = current_bpm st
               end
  | Raise e => e = ZeroDivisionError
               /\ exists new_bpm, tempo_change (current_bpm st) raw = Some new_bpm
                                  /\ is_zero new_bpm = true
  end.
Proof.
  unfold collect_line.
  destruct (String.eqb_spec (Py.strip raw) "") as [E|_].
  { rewrite tempo_change_not_tempo_line; [auto|]. rewrite E. reflexivity. }
  destruct (Py.startswith "fx-l=" (Py.strip raw)) eqn:E1.
  { rewrite tempo_change_not_tempo_line; [simpl; auto|].
    apply startswith_inv in E1 as [r ->]. reflexivity. }
  destruct (Py.startswith "fx-r=" (Py.strip raw)) eqn:E2.
  { rewrite tempo_change_not_tempo_line; [simpl; auto|].
    apply startswith_inv in E2 as [r ->]. reflexivity. }
  cbn [orb].
  destruct (Py.startswith "t=" (Py.strip raw)) eqn:E3.
  { unfold tempo_change, tempo_line. rewrite E3.
    destruct (Py.float_of_str (Py.drop 2 (Py.strip raw))) as [v|e] eqn:Ev.
    - monad_simpl.
      destruct (Py.gt (Qabs (v - current_bpm st)) (1 # 1000)); [|simpl; auto].
      unfold Py.truediv. fold (is_zero v).
      destruct (is_zero v) eqn:Hv; monad_simpl; simpl; eauto.
    - apply float_of_str_raises in Ev as ->. simpl. auto. }
  rewrite (tempo_change_not_tempo_line _ _ E3).
  destruct (Py.startswith "beat=" (Py.strip raw)).
  { unfold beat_line. fold (beat_value (Py.strip raw)).
    destruct (beat_value (Py.strip raw)) as [n|e] eqn:En.
    - simpl. auto.
    - apply beat_value_raises in En as ->. simpl. auto. }
  destruct (Py.contains "=" (Py.strip raw)); simpl; auto.
Qed.

Lemma measures_loop_outcome (lines : list string) :
  forall (st : timeline) (m : measure),
    wf four_key (tl_notes st) -> is_zero (current_bpm st) = false ->
    match measures_loop four_key lines st m with
    | Ok st' => wf four_key (tl_notes st')
                /\ existsb is_zero (tempo_changes (current_bpm st) lines) = false
    | Raise e => e = ZeroDivisionError
                 /\ existsb is_zero (tempo_changes (current_bpm st) lines) = true
    end.
Proof.
  induction lines as [|raw lines IH]; intros st m Hwf Hz; cbn [measures_loop].
  - pose proof (finish_measure_outcome st m Hwf Hz) as H.
    destruct (finish_measure four_key st m); [|destruct H].
    split; [apply H | reflexivity].
  - cbn [tempo_changes]. destruct (String.eqb_spec (Py.strip raw) "--") as [E|_].
    + rewrite tempo_change_not_tempo_line by (rewrite E; reflexivity).
      pose proof (finish_measure_outcome st m Hwf Hz) as H.
      destruct (finish_measure four_key st m) as [st1|]; [|destruct H].
      destruct H as [Hwf1 Hb]. monad_simpl. rewrite <- Hb.
      apply IH; [exact Hwf1 | rewrite Hb; exact Hz].
    + pose proof (collect_line_outcome raw st m) as H.
      destruct (collect_line (Py.strip raw) st m) as [[st1 m1]|e].
      * destruct H as [Hns H]. monad_simpl. cbn [fst] in *.
        destruct (tempo_change (current_bpm st) raw) as [new_bpm|].
        -- destruct H as [Hb Hnz]. cbn [existsb]. rewrite Hnz. cbn [orb].
           rewrite <- Hb. apply IH; [rewrite Hns; exact Hwf | rewrite Hb; exact Hnz].
        -- rewrite <- H. apply IH; [rewrite Hns; exact Hwf | rewrite H; exact Hz].
      * destruct H as [-> (new_bpm & -> & Hnz)]. monad_simpl.
        cbn [existsb]. rewrite Hnz. auto.
Qed.

End Outcome.

Lemma header_bpm_raises (meta : gmap string string) (e : Py.exn) :
  header_bpm meta = Raise e -> e = ValueError.
Proof.
  unfold header_bpm. destruct (meta !! "t"); [|discriminate].
  apply float_of_str_raises.
Qed.

(** X11.  The conversion never fails on the hold table: whatever the
    chart, timeline construction does not raise [KeyError], every column
    the note rules look up being a column of the table. *)
Theorem hold_table_lookup_never_fails (four_key : bool) (custom_offset_ms : Z)
    (lines : list string) (start_idx : nat) (meta : gmap string string) :
  build_timeline four_key custom_offset_ms lines start_idx meta <> Raise KeyError.
Proof.
  unfold build_timeline, initial_timeline.
  destruct (header_bpm meta) as [bpm|e0] eqn:Hh; monad_simpl.
  2: { pose proof (header_bpm_raises _ _ Hh) as ->. discriminate. }
  unfold Py.truediv. fold (is_zero bpm).
  destruct (is_zero bpm) eqn:Hz; monad_simpl; [discriminate|].
  match goal with |- context [measures_loop _ _ ?st0 ?m0] =>
    pose proof (measures_loop_outcome four_key (drop start_idx lines) st0 m0) as H
  end.
  cbn [tl_notes current_bpm] in H.
  specialize (H (length_replicate _ _) Hz).
  destruct (measures_loop _ _ _ _) as [st1|e1]; monad_simpl; [discriminate|].
  destruct H as [-> _]. discriminate.
Qed.

(** ** Hit objects sit in columns *)

Section Columns_ok.

Variable four_key : bool.

Lemma columns_ok_emit (ns : notes) (hs : list (option Z)) (h : hit_object) :
  columns_ok four_key ns -> length hs = length (hold_state ns) ->
  in_column four_key h ->
  columns_ok four_key (Notes hs (hit_objects ns ++ [h])).
Proof.
  intros [Hwf Hall] Hlen Hh. split.
  - unfold wf in *. cbn [hold_state]. congruence.
  - cbn [hit_objects]. apply Forall_app. split; [exact Hall|].
    constructor; [exact Hh | constructor].
Qed.

Lemma in_column_lane (lane : nat) (h : hit_object) :
  (lane < num_lanes four_key)%nat -> event_x h = lane_x_pos four_key lane ->
  in_column four_key h.
Proof. intros Hlt Hx. exists lane. auto. Qed.

Lemma end_hold_columns (lane : nat) (time : Z) (ns : notes) :
  columns_ok four_key ns -> (lane < num_lanes four_key)%nat ->
  returns (end_hold lane (lane_x_pos four_key lane) time ns) (columns_ok four_key).
Proof.
  intros H Hlt. unfold end_hold.
  destruct (hold_get_wf four_key ns lane (proj1 H) Hlt) as (h & -> & _).
  monad_simpl. destruct h as [s|]; monad_simpl; [|exact H].
  apply columns_ok_emit; [exact H | apply length_insert |].
  apply (in_column_lane lane); [exact Hlt | reflexivity].
Qed.

Lemma begin_hold_columns (lane : nat) (time : Z) (ns : notes) :
  columns_ok four_key ns -> (lane < num_lanes four_key)%nat ->
  returns (begin_hold lane time ns) (columns_ok four_key).
Proof.
  intros H Hlt. unfold begin_hold.
  destruct (hold_get_wf four_key ns lane (proj1 H) Hlt) as (h & -> & _).
  monad_simpl. destruct h as [s|]; monad_simpl; [exact H|].
  destruct H as [Hwf Hall]. split; [|exact Hall].
  unfold wf in *. cbn [hold_state]. rewrite length_insert. exact Hwf.
Qed.

Lemma process_note_columns (is_fx : bool) (char : ascii) (idx : nat) (time : Z)
    (ns : notes) :
  columns_ok four_key ns ->
  returns ((if is_fx then process_fx_note else process_bt_note)
             four_key char idx time ns)
          (columns_ok four_key).
Proof.
  intros H.
  destruct is_fx; unfold process_fx_note, process_bt_note;
    (destruct (ksh_to_osu_lane four_key _ idx) as [osu_lane|] eqn:E; [|exact H]);
    pose proof (ksh_to_osu_lane_lt _ _ _ _ E) as Hlt;
    repeat case_match; try exact H;
    try (apply end_hold_columns; assumption);
    try (apply begin_hold_columns; assumption);
    (apply returns_bind;
     eapply returns_mono; [|apply end_hold_columns; assumption];
     intros ns' H'; monad_simpl; unfold tap;
     apply columns_ok_emit; [exact H' | reflexivity |];
     apply (in_column_lane osu_lane); [exact Hlt | reflexivity]).
Qed.

Lemma process_line_columns (start d : Q) (idx : nat) (line : string) (ns : notes) :
  columns_ok four_key ns ->
  returns (process_line four_key start d idx line ns) (columns_ok four_key).
Proof.
  intros H. unfold process_line. apply returns_bind.
  eapply returns_mono;
    [|apply for_chars_returns with (P := columns_ok four_key); [|exact H]].
  - intros ns' H'. apply for_chars_returns; [|exact H'].
    intros i c ns1 H1. apply (process_note_columns true c i _ ns1 H1).
  - intros i c ns1 H1. apply (process_note_columns false c i _ ns1 H1).
Qed.

Lemma process_measure_columns (note_lines : list string) (start bpm : Q)
    (beats : Z) (ns : notes) :
  columns_ok four_key ns ->
  if_returns (process_measure four_key note_lines start bpm beats ns)
             (fun r => columns_ok four_key r.1).
Proof.
  intros H. unfold process_measure.
  destruct (decide (note_lines = [])) as [->|Hne]; [exact H|].
  rewrite process_measure_unfold by exact Hne.
  apply if_returns_bind.
  destruct (Py.truediv 60000 bpm) as [q|]; [|exact I]. cbn [if_returns].
  apply if_returns_bind.
  destruct (Py.truediv _ (inject_Z _)) as [d|]; [|exact I]. cbn [if_returns].
  apply if_returns_bind. apply returns_if_returns.
  eapply returns_mono;
    [|apply for_lines_returns with (P := columns_ok four_key); [|exact H]].
  - intros ns' H'. exact H'.
  - intros. apply process_line_columns. assumption.
Qed.

Lemma finish_measure_columns (st : timeline) (m : measure) :
  columns_ok four_key (tl_notes st) ->
  if_returns (finish_measure four_key st m)
             (fun st' => columns_ok four_key (tl_notes st')).
Proof.
  intros H. unfold finish_measure.
  destruct (measure_lines m) as [|l0 ls0]; [exact H|].
  destruct (List.filter _ _) as [|l ls].
  - destruct (Py.truediv _ _); simpl; [exact H | exact I].
  - apply if_returns_bind.
    eapply if_returns_mono; [|apply process_measure_columns; exact H].
    intros [ns t] H'. exact H'.
Qed.

Lemma measures_loop_columns (lines : list string) (st : timeline) (m : measure) :
  columns_ok four_key (tl_notes st) ->
  if_returns (measures_loop four_key lines st m)
             (fun st' => columns_ok four_key (tl_notes st')).
Proof.
  intros H.
  apply (measures_loop_if_returns four_key
           (fun st _ => columns_ok four_key (tl_notes st))); [| |exact H].
  - intros line st0 m0 H0.
    destruct (collect_line line st0 m0) as [[st1 m1]|] eqn:E; [|exact I].
    simpl. apply collect_line_frame in E as (-> & _). exact H0.
  - intros st0 m0 H0. apply finish_measure_columns. exact H0.
Qed.

Lemma close_loop_columns (final_time : Z) (its : list (nat * option Z)) :
  forall ns : notes,
    Forall (fun p => (p.1 < num_lanes four_key)%nat) its ->
    columns_ok four_key ns ->
    columns_ok four_key (close_loop four_key its final_time ns).
Proof.
  induction its as [|[lane [s|]] its IH]; intros ns Hits H; simpl.
  - exact H.
  - apply Forall_cons in Hits as [Hlt Hits]. apply IH; [exact Hits|].
    apply columns_ok_emit; [exact H | apply length_insert |].
    apply (in_column_lane lane); [exact Hlt | reflexivity].
  - apply Forall_cons in Hits as [_ Hits]. apply IH; assumption.
Qed.

End Columns_ok.

(** X12.  Every hit object of a completed conversion sits in the middle of
    one of the columns of the mode: its x coordinate is the coordinate of
    a column below the column count. *)
Theorem hit_objects_sit_in_columns (four_key : bool) (custom_offset_ms : Z)
    (lines : list string) (start_idx : nat) (meta : gmap string string)
    (st : timeline) :
  build_timeline four_key custom_offset_ms lines start_idx meta = Ok st ->
  Forall (in_column four_key) (hit_objects (tl_notes st)).
Proof.
  unfold build_timeline. intros H.
  apply bind_Ok in H as (st1 & Hinit & H).
  apply bind_Ok in H as (st0 & Hloop & [= <-]).
  cbn [tl_notes].
  assert (H1 : columns_ok four_key (tl_notes st1)).
  { unfold initial_timeline in Hinit.
    apply bind_Ok in Hinit as (bpm & _ & Hinit).
    apply bind_Ok in Hinit as (mpb & _ & [= <-]).
    split; [apply length_replicate | constructor]. }
  pose proof (measures_loop_columns four_key (drop start_idx lines) _
                (enter_measure st1) H1) as H0.
  rewrite Hloop in H0. cbn [if_returns] in H0.
  apply close_loop_columns; [|exact H0].
  apply Forall_forall. intros [lane o] Hin. apply items_lookup in Hin.
  apply lookup_lt_Some in Hin. destruct H0 as [Hwf _]. unfold wf in Hwf.
  simpl. lia.
Qed.

Lemma hit_objects_sit_in_columns_witness :
  exists st,
    build_timeline true 0 ["--"; "2100|11"; "0020|00"; "--"; "1111|22"] 1 ∅ = Ok st
    /\ Forall (in_column true) (hit_objects (tl_notes st)).
Proof.
  eexists. split; [vm_compute; reflexivity|].
  apply (hit_objects_sit_in_columns true 0
           ["--"; "2100|11"; "0020|00"; "--"; "1111|22"] 1 ∅).
  vm_compute. reflexivity.
Defined.

(** ** Span of the events *)



(** ** Lines the measure loop passes over *)

Lemma ignored_is_not_delimiter (raw : string) :
  is_ignored raw = true -> String.eqb (Py.strip raw) "--" = false.
Proof.
  unfold is_ignored. intros H.
  destruct (String.eqb_spec (Py.strip raw) "--") as [E|_]; [|reflexivity].
  rewrite E in H. discriminate.
Qed.

Lemma collect_ignored (raw : string) (st : timeline) (m : measure) :
  is_ignored raw = true -> collect_line (Py.strip raw) st m = Ok (st, m).
Proof.
  unfold is_ignored, collect_line.
  destruct (String.eqb (Py.strip raw) ""); [reflexivity|].
  destruct (Py.startswith "fx-l=" (Py.strip raw)); [reflexivity|].
  destruct (Py.startswith "fx-r=" (Py.strip raw)); [reflexivity|].
  destruct (Py.startswith "t=" (Py.strip raw));
    [rewrite andb_false_r; discriminate|].
  destruct (Py.startswith "beat=" (Py.strip raw));
    [rewrite andb_false_r; discriminate|].
  destruct (Py.contains "=" (Py.strip raw)); [reflexivity | discriminate].
Qed.

(** X15.  Blank lines, [fx-l=] and [fx-r=] lines and every other control
    line that is neither a tempo nor a time-signature line can be removed
    from, or added to, the chart body anywhere without changing the
    result of the measure loop. *)
Theorem ignored_line_changes_nothing (four_key : bool) (raw : string)
    (before after : list string) (st : timeline) (m : measure) :
  is_ignored raw = true ->
  measures_loop four_key (before ++ raw :: after) st m
  = measures_loop four_key (before ++ after) st m.
Proof.
  intros H. revert st m.
  induction before as [|l before IH]; intros st m; cbn [app measures_loop].
  - rewrite (ignored_is_not_delimiter _ H), (collect_ignored _ _ _ H).
    reflexivity.
  - destruct (String.eqb (Py.strip l) "--").
    + destruct (finish_measure four_key st m) as [st1|]; monad_simpl;
        [apply IH | reflexivity].
    + destruct (collect_line (Py.strip l) st m) as [[st1 m1]|]; monad_simpl;
        [apply IH | reflexivity].
Qed.

Lemma ignored_line_changes_nothing_witness :
  exists st0,
    initial_timeline false 0 ∅ = Ok st0
    /\ measures_loop false (["1000|00"] ++ "filtertype=peak" :: ["0100|00"; "--"])
         st0 (enter_measure st0)
       = measures_loop false (["1000|00"] ++ ["0100|00"; "--"])
           st0 (enter_measure st0).
Proof.
  eexists. split; [vm_compute; reflexivity|].
  apply (ignored_line_changes_nothing false "filtertype=peak").
  reflexivity.
Defined.

(** X16.  A measure without any kept line costs no time and emits
    nothing: two delimiters in a row count as one, and a delimiter at the
    end of the chart changes nothing. *)
Theorem empty_measure_costs_nothing (four_key : bool) (d : string)
    (before after : list string) (st : timeline) (m : measure) :
  is_delimiter d = true ->
  measures_loop four_key (before ++ "--" :: d :: after) st m
  = measures_loop four_key (before ++ "--" :: after) st m
  /\ measures_loop four_key (before ++ [d]) st m
     = measures_loop four_key before st m.
Proof.
  unfold is_delimiter. intros Hd. split; revert st m.
  - induction before as [|l before IH]; intros st m; cbn [app measures_loop].
    + change (String.eqb (Py.strip "--") "--") with true. cbv iota.
      rewrite Hd. destruct (finish_measure four_key st m) as [st1|]; monad_simpl;
        reflexivity.
    + destruct (String.eqb (Py.strip l) "--").
      * destruct (finish_measure four_key st m) as [st1|]; monad_simpl;
          [apply IH | reflexivity].
      * destruct (collect_line (Py.strip l) st m) as [[st1 m1]|]; monad_simpl;
          [apply IH | reflexivity].
  - induction before as [|l before IH]; intros st m; cbn [app measures_loop].
    + rewrite Hd. destruct (finish_measure four_key st m) as [st1|]; monad_simpl;
        reflexivity.
    + destruct (String.eqb (Py.strip l) "--").
      * destruct (finish_measure four_key st m) as [st1|]; monad_simpl;
          [apply IH | reflexivity].
      * destruct (collect_line (Py.strip l) st m) as [[st1 m1]|]; monad_simpl;
          [apply IH | reflexivity].
Qed.

Lemma empty_measure_costs_nothing_witness :
  exists st0,
    initial_timeline false 0 ∅ = Ok st0
    /\ measures_loop false (["1000|00"] ++ "--" :: " --" :: ["0100|00"])
         st0 (enter_measure st0)
       = measures_loop false (["1000|00"] ++ "--" :: ["0100|00"])
           st0 (enter_measure st0).
Proof.
  eexists. split; [vm_compute; reflexivity|].
  apply (empty_measure_costs_nothing false " --"). reflexivity.
Defined.

(** ** The lookahead *)

Lemma find_none_without_bar (next : list string) :
  forallb (fun l => negb (Py.contains "|" l)) next = true ->
  List.find (Py.contains "|") next = None.
Proof.
  induction next as [|l next IH]; simpl; [reflexivity|].
  intros [H1 H2]%andb_prop. apply negb_true_iff in H1. rewrite H1. exact (IH H2).
Qed.

(** X17.  A lookahead in which no line has a separator closes nothing at
    the boundary: the measure is processed as without lookahead. *)
Theorem lookahead_without_note_line (four_key : bool) (note_lines : list string)
    (start bpm : Q) (beats : Z) (ns : notes) (next : list string) :
  forallb (fun l => negb (Py.contains "|" l)) next = true ->
  process_measure_with_lookahead four_key note_lines start bpm beats ns (Some next)
  = process_measure four_key note_lines start bpm beats ns.
Proof.
  intros H. unfold process_measure.
  destruct note_lines as [|l ls]; [reflexivity|].
  rewrite !process_measure_unfold by discriminate.
  destruct (Py.truediv 60000 bpm) as [q|]; monad_simpl; [|reflexivity].
  match goal with |- ?m ≫= _ = _ => destruct m as [d|] end;
    monad_simpl; [|reflexivity].
  destruct (for_lines _ 0 (l :: ls) ns) as [ns1|]; monad_simpl; [|reflexivity].
  destruct next as [|n next]; [reflexivity|].
  unfold check_cross_measure_holds. rewrite (find_none_without_bar _ H).
  reflexivity.
Qed.

Lemma lookahead_without_note_line_witness :
  process_measure_with_lookahead false ["2000|00"] 0 120 4
    (Notes (replicate 6 None) []) (Some ["0000"; "t=150"])
  = process_measure false ["2000|00"] 0 120 4 (Notes (replicate 6 None) []).
Proof.
  apply (lookahead_without_note_line false ["2000|00"] 0 120 4
           (Notes (replicate 6 None) []) ["0000"; "t=150"]).
  reflexivity.
Defined.

(** ** The note rules *)

(** X18.  The rule of one character, for either segment with its own
    digits.  On a column whose table entry is [o]: the tap digit closes an
    open hold at the line time and then emits the tap, in this order; the
    hold digit opens a hold at the line time if none is open and keeps the
    start of a hold that is open, without an event; [0] and the space
    close an open hold; any other character does nothing at all. *)
Theorem note_rules (four_key is_fx : bool) (idx lane : nat) (time : Z)
    (ns : notes) (o : option Z) :
  ksh_to_osu_lane four_key is_fx idx = Some lane ->
  hold_state ns !! lane = Some o ->
  let x := lane_x_pos four_key lane in
  process_note four_key is_fx (tap_char is_fx) idx time ns
  = Ok (Notes (<[lane := None]> (hold_state ns))
          (hit_objects ns ++ closing_event x time o ++ [Tap x time]))
  /\ process_note four_key is_fx (hold_char is_fx) idx time ns
     = Ok (Notes (<[lane := Some (default time o)]> (hold_state ns))
             (hit_objects ns))
  /\ (forall c, is_empty_char c ->
        process_note four_key is_fx c idx time ns
        = Ok (Notes (<[lane := None]> (hold_state ns))
                (hit_objects ns ++ closing_event x time o)))
  /\ (forall c, is_other_char c = true ->
        process_note four_key is_fx c idx time ns = Ok ns).
Proof.
  intros Hlane Ho x.
  assert (Hid : <[lane := o]> (hold_state ns) = hold_state ns)
    by (apply list_insert_id; exact Ho).
  assert (Hend : end_hold lane x time ns
                 = Ok (Notes (<[lane := None]> (hold_state ns))
                         (hit_objects ns ++ closing_event x time o))).
  { unfold end_hold, hold_get. rewrite Ho. monad_simpl.
    destruct o as [s|]; monad_simpl; [reflexivity|].
    simpl. rewrite Hid, app_nil_r. destruct ns; reflexivity. }
  assert (Hbegin : begin_hold lane time ns
                   = Ok (Notes (<[lane := Some (default time o)]> (hold_state ns))
                           (hit_objects ns))).
  { unfold begin_hold, hold_get. rewrite Ho. monad_simpl.
    destruct o as [s|]; monad_simpl; [|reflexivity].
    simpl. rewrite Hid. destruct ns; reflexivity. }
  assert (Htap : (ns' ← end_hold lane x time ns; Ok (tap x time ns'))
                 = Ok (Notes (<[lane := None]> (hold_state ns))
                         (hit_objects ns ++ closing_event x time o ++ [Tap x time]))).
  { rewrite Hend. monad_simpl. unfold tap. cbn [hold_state hit_objects].
    rewrite <- app_assoc. reflexivity. }
  unfold process_note, tap_char, hold_char, is_other_char.
  destruct is_fx; unfold process_fx_note, process_bt_note; rewrite Hlane;
    fold x; (split; [exact Htap|]); (split; [exact Hbegin|]); split.
  - intros c [-> | ->]; exact Hend.
  - intros c Hc. apply negb_true_iff in Hc.
    apply orb_false_elim in Hc as [Hc H4]. apply orb_false_elim in Hc as [Hc H3].
    apply orb_false_elim in Hc as [H1 H2]. rewrite H1, H2, H3, H4. reflexivity.
  - intros c [-> | ->]; exact Hend.
  - intros c Hc. apply negb_true_iff in Hc.
    apply orb_false_elim in Hc as [Hc H4]. apply orb_false_elim in Hc as [Hc H3].
    apply orb_false_elim in Hc as [H1 H2]. rewrite H1, H2, H3, H4. reflexivity.
Qed.

Lemma note_rules_witness :
  process_note false true (tap_char true) 1 900
    (Notes [None; None; None; None; None; Some 400] [])
  = Ok (Notes [None; None; None; None; None; None]
          [Hold 469 400 900; Tap 469 900]).
Proof.
  apply (note_rules false true 1 5 900
           (Notes [None; None; None; None; None; Some 400] []) (Some 400));
    reflexivity.
Defined.

(** ** The boundary resolver *)

Lemma only_closes_refl (four_key : bool) (time : Z) (ns : notes) :
  wf four_key ns -> only_closes four_key time ns ns.
Proof.
  intros Hwf. split; [exact Hwf|]. split; [|auto].
  exists []. rewrite app_nil_r. split; [reflexivity | constructor].
Qed.

Lemma cross_measure_note_only_closes (four_key is_fx : bool)
    (closing : list ascii) (time : Z) (idx : nat) (c : ascii) (ns0 ns : notes) :
  only_closes four_key time ns0 ns ->
  returns (cross_measure_note four_key is_fx closing time idx c ns)
          (only_closes four_key time ns0).
Proof.
  intros (Hwf & (new & Hnew & Hall) & Hopen). unfold cross_measure_note.
  assert (H : only_closes four_key time ns0 ns)
    by (split; [exact Hwf|]; split; [eauto | exact Hopen]).
  destruct (ksh_to_osu_lane four_key is_fx idx) as [lane|] eqn:E; [|exact H].
  apply ksh_to_osu_lane_lt in E.
  destruct (hold_get_wf four_key ns lane Hwf E) as (h & -> & _). monad_simpl.
  destruct h as [s|]; [|exact H].
  destruct (existsb (Ascii.eqb c) closing); [|exact H].
  split; [|split].
  - unfold wf in *. cbn [hold_state]. rewrite length_insert. exact Hwf.
  - exists (new ++ [Hold (lane_x_pos four_key lane) s time]).
    cbn [hit_objects]. rewrite Hnew, <- app_assoc. split; [reflexivity|].
    apply Forall_app. split; [exact Hall|].
    constructor; [|constructor]. exists (lane_x_pos four_key lane), s. reflexivity.
  - cbn [hold_state]. intros lane' s' Hl.
    destruct (decide (lane = lane')) as [<-|Hne].
    + rewrite list_lookup_insert_eq in Hl by (unfold wf in Hwf; lia).
      discriminate.
    + rewrite list_lookup_insert_ne in Hl by exact Hne. apply Hopen. exact Hl.
Qed.

(** X19.  The boundary resolver only ever closes holds: whatever the next
    measure is, every event it adds is a hold ending at the boundary time,
    it emits no tap, and it neither opens a hold nor changes the start of
    one that stays open. *)
Theorem resolver_only_closes (four_key : bool) (ns : notes)
    (next_measure_data : list string) (measure_end_time : Z) :
  wf four_key ns ->
  returns (check_cross_measure_holds four_key ns next_measure_data measure_end_time)
          (only_closes four_key measure_end_time ns).
Proof.
  intros Hwf. unfold check_cross_measure_holds.
  pose proof (only_closes_refl four_key measure_end_time ns Hwf) as H.
  destruct (List.find (Py.contains "|") next_measure_data) as [first_line|];
    [|exact H].
  destruct (String.eqb first_line ""); [exact H|].
  apply returns_bind.
  eapply returns_mono;
    [|apply for_chars_returns
        with (P := only_closes four_key measure_end_time ns); [|exact H]].
  - intros ns1 H1. apply for_chars_returns; [|exact H1].
    intros i c ns2 H2. apply cross_measure_note_only_closes. exact H2.
  - intros i c ns1 H1. apply cross_measure_note_only_closes. exact H1.
Qed.

Lemma resolver_only_closes_witness :
  returns
    (check_cross_measure_holds false
       (Notes [Some 0; Some 100; None; Some 250; None; None] [])
       ["t=150"; "1020|00"] 2000)
    (only_closes false 2000
       (Notes [Some 0; Some 100; None; Some 250; None; None] [])).
Proof.
  apply (resolver_only_closes false
           (Notes [Some 0; Some 100; None; Some 250; None; None] [])
           ["t=150"; "1020|00"] 2000).
  reflexivity.
Defined.

(** ** Serializer *)

(** X20.  The column count written to the difficulty section is the
    number of columns the lane mapper and the hold table use, so that the
    x coordinates of the hit objects are read back as their columns. *)
Theorem circle_size_is_the_column_count (four_key : bool)
    (meta : gmap string string) :
  In ("CircleSize:" ++ Py.str_of_int (Z.of_nat (num_lanes four_key)))%string
     (osu_head four_key meta).
Proof.
  unfold osu_head. apply in_or_app. left.
  destruct four_key; cbn [In];
    repeat (first [left; reflexivity | right]).
Qed.
